(** * Inventory management system: products, inventory store, sales ledger

    A shallow embedding of [inventory_management_system.py] and the
    properties of its domain layer ([Product] and its three subclasses,
    [Inventory], [Sales]).

    Modelling conventions.
    - Python [int] is [Z].  A price is a Python [float] in the source; binary
      floating point is not modelled: a price is an exact rational ([Qc]), so
      every statement about a product [price * quantity] or about a sum of
      them is a statement of exact arithmetic (no rounding, no NaN, no
      infinity, no overflow of a conversion from [int]).
    - A Python [dict] is a [gmap].  The order in which Python iterates a
      dict, the order of insertion, is not modelled: a dict is iterated in
      the order of [map_to_list], and no property below depends on it.
    - Objects held by the store are mutated in place by the source; here the
      store maps an id to the current state of the object it holds, and a
      method that mutates the object writes the new state back under the key
      the object was found at.
    - Exceptions do not roll anything back: an operation is a function from
      the state before to an outcome and the state after.
    - The two backing files are part of the state, as the JSON document they
      hold ([None] when the file does not exist).  [json.dump] and
      [json.load] are taken to be inverse to each other on these documents,
      and opening and writing a file is taken to succeed.
    - [date.today()] and [datetime.now()] read the state.  Writing to the log
      file [inventory.log] is not modelled. *)

From Stdlib Require Import Ascii QArith Qcanon.
From stdpp Require Import gmap strings list fin_maps pretty numbers.

Local Open Scope Z_scope.

(** ** Numbers *)

(** An [int] among the floats: the conversion Python applies to the [int]
    operand of a mixed operation such as [price * quantity]. *)
Definition of_int (z : Z) : Qc := Q2Qc (inject_Z z).

(** ** Calendar dates ([datetime.date]) *)

Definition is_leap (y : Z) : bool :=
  (y mod 4 =? 0) && (negb (y mod 100 =? 0) || (y mod 400 =? 0)).

Definition days_in_month (y m : Z) : Z :=
  if m =? 2 then (if is_leap y then 29 else 28)
  else if (m =? 4) || (m =? 6) || (m =? 9) || (m =? 11) then 30
  else 31.

(** What the constructor of [date] checks: [MINYEAR <= year <= MAXYEAR], a
    month of the year, a day of that month. *)
Definition valid_ymd (y m d : Z) : bool :=
  (1 <=? y) && (y <=? 9999) && (1 <=? m) && (m <=? 12)
  && (1 <=? d) && (d <=? days_in_month y m).

(** A [date] object: it exists only for a valid year, month and day. *)
Record date : Type := Date {
  year : Z;
  month : Z;
  day : Z;
  date_ok : Is_true (valid_ymd year month day)
}.

(** [a < b] on dates: the order of the triples (year, month, day). *)
Definition date_ltb (a b : date) : bool :=
  (year a <? year b)
  || ((year a =? year b)
      && ((month a <? month b)
          || ((month a =? month b) && (day a <? day b)))).

(** The character of a decimal digit, and back. *)
Definition digit_char (n : Z) : ascii := ascii_of_nat (Z.to_nat (48 + n mod 10)).

Definition digit_val (c : ascii) : option Z :=
  let n := Z.of_nat (nat_of_ascii c) in
  if (48 <=? n) && (n <=? 57) then Some (n - 48) else None.

(** ["%0wd" % n] for [0 <= n < 10^w]: the [w] decimal digits of [n]. *)
Fixpoint zero_padded (w : nat) (n : Z) : string :=
  match w with
  | O => EmptyString
  | S w' => zero_padded w' (n / 10) +:+ String (digit_char n) EmptyString
  end.

(** The number written by a string of decimal digits ([acc] holds the digits
    read so far); [None] when a character is not a digit. *)
Fixpoint digits_val (acc : Z) (s : string) : option Z :=
  match s with
  | EmptyString => Some acc
  | String c s' =>
      match digit_val c with
      | Some d => digits_val (10 * acc + d) s'
      | None => None
      end
  end.

(** [date.isoformat()]: ["%04d-%02d-%02d" % (year, month, day)]. *)
Definition isoformat (d : date) : string :=
  zero_padded 4 (year d) +:+ "-" +:+ zero_padded 2 (month d) +:+ "-"
  +:+ zero_padded 2 (day d).

(** [date.fromisoformat(s)] on the calendar format YYYY-MM-DD, the one
    [isoformat] writes and the one the error message of [GroceryProduct]
    asks for: ten characters, digits around two hyphens, and then the checks
    of the constructor.  [None] is [ValueError].  (Python 3.11 and later
    also read other ISO 8601 forms, such as YYYYMMDD; for those this
    function answers [None].) *)
Definition fromisoformat (s : string) : option date :=
  if decide (String.length s = 10%nat) then
    if decide (String.substring 4 1 s = "-" ∧ String.substring 7 1 s = "-") then
      match digits_val 0 (String.substring 0 4 s),
            digits_val 0 (String.substring 5 2 s),
            digits_val 0 (String.substring 8 2 s) with
      | Some y, Some m, Some d =>
          match decide (Is_true (valid_ymd y m d)) with
          | left ok => Some (Date y m d ok)
          | right _ => None
          end
      | _, _, _ => None
      end
    else None
  else None.

(** ** Exceptions *)

Inductive exn : Type :=
  | ValueError (msg : string)
  | KeyError (key : string)
  | TypeError (msg : string)
  | AttributeError (msg : string)
  | DuplicateProductError (msg : string)
  | InsufficientStockError (msg : string)
  | InvalidProductDataError (msg : string).

(** [str(e)]: the message; the [repr] of the key for a [KeyError]. *)
Definition exn_str (e : exn) : string :=
  match e with
  | KeyError k => "'" +:+ k +:+ "'"
  | ValueError m | TypeError m | AttributeError m | DuplicateProductError m
  | InsufficientStockError m | InvalidProductDataError m => m
  end.

(** The outcome of a call: a value, or an exception raised.

    The third case is no outcome of the program.  The constructors of the
    products check no type, so Python keeps whatever value an entry of the
    inventory file holds; the model is typed as the annotations of the
    constructors are, and an entry holding a value of another type under
    [field] is outside of it.  [Untyped] marks that case; only
    [product_of_dict] produces it. *)
Inductive result (A : Type) : Type :=
  | Ok (a : A)
  | Raise (e : exn)
  | Untyped (field : string).
Arguments Ok {A} a.
Arguments Raise {A} e.
Arguments Untyped {A} field.

(** ** Products *)

(** The concrete subclass of a product with the attributes it adds. *)
Inductive product_class : Type :=
  | Electronic (warranty_years : Z) (brand : string)
  | Clothing (size : string) (material : string)
  | Grocery (expiry_date : date).

(** The state of a [Product] object. *)
Record Product : Type := mkProduct {
  product_id : string;
  name : string;
  price : Qc;
  quantity : Z;
  class : product_class
}.

(** [Product.__init__] stores its four arguments as they are; the subclasses
    add theirs.  Nothing is checked but the expiry date of a grocery
    product. *)
Definition ElectronicProduct (product_id name : string) (price : Qc)
    (quantity warranty_years : Z) (brand : string) : Product :=
  mkProduct product_id name price quantity (Electronic warranty_years brand).

Definition ClothingProduct (product_id name : string) (price : Qc)
    (quantity : Z) (size material : string) : Product :=
  mkProduct product_id name price quantity (Clothing size material).

Definition GroceryProduct (product_id name : string) (price : Qc)
    (quantity : Z) (expiry_date : string) : result Product :=
  match fromisoformat expiry_date with
  | Some d => Ok (mkProduct product_id name price quantity (Grocery d))
  | None => Raise (InvalidProductDataError "Invalid expiry date format. Use YYYY-MM-DD")
  end.

(** The object after the assignment [self._quantity = value]. *)
Definition with_quantity (value : Z) (p : Product) : Product :=
  mkProduct (product_id p) (name p) (price p) value (class p).

(** The setter of the property [quantity]. *)
Definition set_quantity (value : Z) (p : Product) : result Product :=
  if value <? 0 then Raise (ValueError "Quantity cannot be negative")
  else Ok (with_quantity value p).

(** [Product.restock]. *)
Definition restock (amount : Z) (p : Product) : result Product :=
  if amount <? 0 then Raise (ValueError "Restock amount cannot be negative")
  else set_quantity (quantity p + amount) p.

(** [Product.sell]. *)
Definition sell (qty : Z) (p : Product) : result Product :=
  if qty <? 0 then Raise (ValueError "Sell quantity cannot be negative")
  else if qty >? quantity p then
    Raise (InsufficientStockError
             ("Insufficient stock for " +:+ name p +:+ ". Available: "
              +:+ pretty (quantity p)))
  else set_quantity (quantity p - qty) p.

(** [Product.get_total_value]. *)
Definition get_total_value (p : Product) : Qc :=
  (price p * of_int (quantity p))%Qc.

(** [GroceryProduct.is_expired], given what [date.today()] returns. *)
Definition is_expired (today expiry_date : date) : bool :=
  date_ltb expiry_date today.

(** [isinstance(p, GroceryProduct) and p.is_expired()]. *)
Definition expired_grocery (today : date) (p : Product) : bool :=
  match class p with
  | Grocery d => is_expired today d
  | _ => false
  end.

(** [self.__class__.__name__]. *)
Definition class_name (p : Product) : string :=
  match class p with
  | Electronic _ _ => "ElectronicProduct"
  | Clothing _ _ => "ClothingProduct"
  | Grocery _ => "GroceryProduct"
  end.

(** ** JSON documents *)

(** The values that occur in the two files: strings, integers and floats. *)
Inductive pyval : Type :=
  | VStr (s : string)
  | VInt (z : Z)
  | VFloat (q : Qc).

(** A dictionary with string keys, such as an entry of a JSON file. *)
Abbreviation pydict := (gmap string pyval).

(** [Product.to_dict]: the fields of the base class and the name of the
    class. *)
Definition base_dict (p : Product) : pydict :=
  <["type" := VStr (class_name p)]>
    (<["quantity" := VInt (quantity p)]>
       (<["price" := VFloat (price p)]>
          (<["name" := VStr (name p)]>
             (<["product_id" := VStr (product_id p)]> ∅)))).

(** [to_dict] as each subclass overrides it. *)
Definition to_dict (p : Product) : pydict :=
  match class p with
  | Electronic warranty_years brand =>
      <["brand" := VStr brand]>
        (<["warranty_years" := VInt warranty_years]> (base_dict p))
  | Clothing size material =>
      <["material" := VStr material]> (<["size" := VStr size]> (base_dict p))
  | Grocery expiry_date =>
      <["expiry_date" := VStr (isoformat expiry_date)]> (base_dict p)
  end.

(** [item[key]]. *)
Definition getitem (item : pydict) (key : string) : result pyval :=
  match item !! key with
  | Some v => Ok v
  | None => Raise (KeyError key)
  end.

Definition str_field (item : pydict) (key : string) (k : string → result Product)
    : result Product :=
  match getitem item key with
  | Ok (VStr s) => k s
  | Ok _ => Untyped key
  | Raise e => Raise e
  | Untyped f => Untyped f
  end.

Definition int_field (item : pydict) (key : string) (k : Z → result Product)
    : result Product :=
  match getitem item key with
  | Ok (VInt z) => k z
  | Ok _ => Untyped key
  | Raise e => Raise e
  | Untyped f => Untyped f
  end.

Definition float_field (item : pydict) (key : string) (k : Qc → result Product)
    : result Product :=
  match getitem item key with
  | Ok (VFloat q) => k q
  | Ok _ => Untyped key
  | Raise e => Raise e
  | Untyped f => Untyped f
  end.

(** The body of the loop of [Inventory.load_inventory]: the product an entry
    of the file stands for.  The arguments of a constructor are read in the
    order the call lists them.  (The message for an unknown type prints the
    tag; a tag that is no string is left outside the model with it.) *)
Definition product_of_dict (item : pydict) : result Product :=
  match getitem item "type" with
  | Raise e => Raise e
  | Untyped f => Untyped f
  | Ok (VStr type) =>
      if decide (type = "ElectronicProduct") then
        str_field item "product_id" (λ product_id,
        str_field item "name" (λ name,
        float_field item "price" (λ price,
        int_field item "quantity" (λ quantity,
        int_field item "warranty_years" (λ warranty_years,
        str_field item "brand" (λ brand,
        Ok (ElectronicProduct product_id name price quantity
              warranty_years brand)))))))
      else if decide (type = "ClothingProduct") then
        str_field item "product_id" (λ product_id,
        str_field item "name" (λ name,
        float_field item "price" (λ price,
        int_field item "quantity" (λ quantity,
        str_field item "size" (λ size,
        str_field item "material" (λ material,
        Ok (ClothingProduct product_id name price quantity
              size material)))))))
      else if decide (type = "GroceryProduct") then
        str_field item "product_id" (λ product_id,
        str_field item "name" (λ name,
        float_field item "price" (λ price,
        int_field item "quantity" (λ quantity,
        match getitem item "expiry_date" with
        | Raise e => Raise e
        | Untyped f => Untyped f
        | Ok (VStr expiry_date) =>
            GroceryProduct product_id name price quantity expiry_date
        | Ok _ => Raise (TypeError "fromisoformat: argument must be str")
        end))))
      else Raise (InvalidProductDataError ("Unknown product type: " +:+ type))
  | Ok _ => Untyped "type"
  end.

(** ** The state *)

(** An [Inventory], the [Sales] built on it, the two files they are backed
    by, and the clock. *)
Record world : Type := World {
  products : gmap string Product;        (* Inventory._products *)
  sales_log : list pydict;               (* Sales._sales_log *)
  inventory_json : option (list pydict); (* the file inventory.json *)
  sales_json : option (list pydict);     (* the file sales.json *)
  today : date;                          (* date.today() *)
  now : string                           (* datetime.now().isoformat() *)
}.

Definition set_products (f : gmap string Product → gmap string Product)
    (w : world) : world :=
  World (f (products w)) (sales_log w) (inventory_json w) (sales_json w)
        (today w) (now w).

Definition set_sales_log (f : list pydict → list pydict) (w : world) : world :=
  World (products w) (f (sales_log w)) (inventory_json w) (sales_json w)
        (today w) (now w).

Definition set_inventory_json (doc : option (list pydict)) (w : world) : world :=
  World (products w) (sales_log w) doc (sales_json w) (today w) (now w).

Definition set_sales_json (doc : option (list pydict)) (w : world) : world :=
  World (products w) (sales_log w) (inventory_json w) doc (today w) (now w).

Definition set_clock (today : date) (now : string) (w : world) : world :=
  World (products w) (sales_log w) (inventory_json w) (sales_json w) today now.

(** A method: from the state before to its outcome and the state after. *)
Definition M (A : Type) : Type := world → result A * world.

#[global] Instance M_ret : MRet M := λ A a w, (Ok a, w).

#[global] Instance M_bind : MBind M := λ A B f m w,
  match m w with
  | (Ok a, w') => f a w'
  | (Raise e, w') => (Raise e, w')
  | (Untyped k, w') => (Untyped k, w')
  end.

Definition gets {A : Type} (f : world → A) : M A := λ w, (Ok (f w), w).

Definition modify (f : world → world) : M unit := λ w, (Ok tt, f w).

Definition raise {A : Type} (e : exn) : M A := λ w, (Raise e, w).

(** The outcome of a call that touches no state. *)
Definition lift {A : Type} (r : result A) : M A := λ w, (r, w).

(** [try: body except Exception as e: handler e]. *)
Definition try_except {A : Type} (body : M A) (handler : exn → M A) : M A :=
  λ w, match body w with
       | (Raise e, w') => handler e w'
       | other => other
       end.

(** [for x in l: body x]. *)
Fixpoint for_each {A : Type} (l : list A) (body : A → M unit) : M unit :=
  match l with
  | [] => mret tt
  | x :: l' => body x;; for_each l' body
  end.

(** [d.values()]. *)
Definition values {V : Type} (d : gmap string V) : list V :=
  (map_to_list d).*2.

(** ** Inventory *)

(** [Inventory.get_product]: [self._products.get(product_id)]. *)
Definition get_product (product_id : string) : M (option Product) :=
  gets (λ w, products w !! product_id).

(** The state after the file of the inventory has been written: it holds the
    dictionaries of the products of the store. *)
Definition saved (w : world) : world :=
  set_inventory_json (Some (to_dict <$> values (products w))) w.

(** [Inventory.save_inventory]. *)
Definition save_inventory : M unit := modify saved.

(** [Inventory.add_product]. *)
Definition add_product (product : Product) : M unit :=
  found ← get_product (product_id product);
  match found with
  | Some _ =>
      raise (DuplicateProductError
               ("Product with ID " +:+ product_id product +:+ " already exists"))
  | None =>
      modify (set_products (insert (product_id product) product));;
      save_inventory
  end.

Definition not_found (product_id : string) : exn :=
  ValueError ("Product with ID " +:+ product_id +:+ " not found").

(** [Inventory.remove_product]. *)
Definition remove_product (product_id : string) : M unit :=
  found ← get_product product_id;
  match found with
  | None => raise (not_found product_id)
  | Some _ => modify (set_products (delete product_id));; save_inventory
  end.

(** A call of a method that mutates the object the store holds under
    [product_id]: the new state of the object replaces the old one; when the
    method raises, it has changed nothing. *)
Definition call_on (product_id : string) (method : Product → result Product)
    (product : Product) : M Product :=
  product' ← lift (method product);
  modify (set_products (insert product_id product'));;
  mret product'.

(** [Inventory.sell_product]. *)
Definition sell_product (product_id : string) (qty : Z) : M Qc :=
  found ← get_product product_id;
  match found with
  | None => raise (not_found product_id)
  | Some product =>
      product ← call_on product_id (sell qty) product;
      save_inventory;;
      mret (price product * of_int qty)%Qc
  end.

(** [Inventory.restock_product]. *)
Definition restock_product (product_id : string) (qty : Z) : M unit :=
  found ← get_product product_id;
  match found with
  | None => raise (not_found product_id)
  | Some product =>
      call_on product_id (restock qty) product;;
      save_inventory
  end.

(** The builtin [sum] of Python: from [0], left to right. *)
Definition py_sum (l : list Qc) : Qc := foldl Qcplus (of_int 0) l.

(** [Inventory.total_inventory_value]. *)
Definition total_inventory_value : M Qc :=
  gets (λ w, py_sum (get_total_value <$> values (products w))).

(** The list [expired_ids] of [remove_expired_products]: the ids of the
    products of the store that are grocery products and expired. *)
Definition expired_ids (w : world) : list string :=
  product_id <$> filter (λ p, Is_true (expired_grocery (today w) p))
                        (values (products w)).

(** [Inventory.remove_expired_products]. *)
Definition remove_expired_products : M unit :=
  ids ← gets expired_ids;
  for_each ids remove_product.

(** [Inventory.load_inventory]. *)
Definition load_inventory : M unit :=
  file ← gets inventory_json;
  match file with
  | None => mret tt
  | Some data =>
      try_except
        (for_each data (λ item,
           product ← lift (product_of_dict item);
           modify (set_products (insert (product_id product) product))))
        (λ e, raise (InvalidProductDataError
                       ("Failed to load inventory: " +:+ exn_str e)))
  end.

(** [Inventory.__init__]. *)
Definition Inventory_init : M unit :=
  modify (set_products (λ _, ∅));; load_inventory.

(** ** Sales *)

(** [Sales.save_sales]. *)
Definition save_sales : M unit :=
  modify (λ w, set_sales_json (Some (sales_log w)) w).

(** [Sales.load_sales]. *)
Definition load_sales : M unit :=
  file ← gets sales_json;
  match file with
  | None => mret tt
  | Some data => modify (set_sales_log (λ _, data))
  end.

(** [Sales.__init__]. *)
Definition Sales_init : M unit :=
  modify (set_sales_log (λ _, []));; load_sales.

(** The record of a sale, as [process_sale] builds it when the ledger holds
    [len] records. *)
Definition sale_record (len : Z) (product_id product_name : string) (qty : Z)
    (total_price : Qc) (timestamp : string) : pydict :=
  <["timestamp" := VStr timestamp]>
    (<["total_price" := VFloat total_price]>
       (<["quantity" := VInt qty]>
          (<["product_name" := VStr product_name]>
             (<["product_id" := VStr product_id]>
                (<["sale_id" := VStr ("SALE_" +:+ pretty (len + 1))]> ∅))))).

(** [Sales.process_sale]. *)
Definition process_sale (product_id : string) (qty : Z) : M Qc :=
  total_price ← sell_product product_id qty;
  len ← gets (λ w, Z.of_nat (length (sales_log w)));
  found ← get_product product_id;
  product_name ←
    match found with
    | Some product => mret (name product)
    | None => raise (AttributeError "'NoneType' object has no attribute 'name'")
    end;
  timestamp ← gets now;
  modify (set_sales_log
            (λ log, log ++ [sale_record len product_id product_name qty
                              total_price timestamp]));;
  save_sales;;
  mret total_price.

(** [Sales.get_sales_history]. *)
Definition get_sales_history : M (list pydict) := gets sales_log.

(** ** Runs *)

(** The calls a shell makes on the two objects, and the passing of time
    between two calls. *)
Inductive command : Type :=
  | AddProduct (product : Product)
  | RemoveProduct (product_id : string)
  | SellProduct (product_id : string) (qty : Z)
  | RestockProduct (product_id : string) (qty : Z)
  | RemoveExpired
  | ProcessSale (product_id : string) (qty : Z)
  | Tick (today : date) (now : string).

(** The state after a call, whatever its outcome: the shells catch the
    exception, report it and go on. *)
Definition exec (c : command) (w : world) : world :=
  match c with
  | AddProduct product => snd (add_product product w)
  | RemoveProduct product_id => snd (remove_product product_id w)
  | SellProduct product_id qty => snd (sell_product product_id qty w)
  | RestockProduct product_id qty => snd (restock_product product_id qty w)
  | RemoveExpired => snd (remove_expired_products w)
  | ProcessSale product_id qty => snd (process_sale product_id qty w)
  | Tick today now => set_clock today now w
  end.

(** The state after a sequence of calls. *)
Definition run (cs : list command) (w : world) : world :=
  foldl (λ w c, exec c w) w cs.

(** Whether a call is a sale through the ledger that goes through. *)
Definition sale_succeeds (c : command) (w : world) : bool :=
  match c with
  | ProcessSale product_id qty =>
      match fst (process_sale product_id qty w) with
      | Ok _ => true
      | _ => false
      end
  | _ => false
  end.

(** The number of sales through the ledger that go through in a run. *)
Fixpoint successful_sales (cs : list command) (w : world) : nat :=
  match cs with
  | [] => O
  | c :: cs' =>
      ((if sale_succeeds c w then 1 else 0) + successful_sales cs' (exec c w))%nat
  end.

(** The [sale_id] of a record of the ledger. *)
Definition sale_id (record : pydict) : option pyval := record !! "sale_id".

(** ["SALE_1"], ..., ["SALE_n"]. *)
Definition sale_ids (n : nat) : list (option pyval) :=
  (λ i : nat, Some (VStr ("SALE_" +:+ pretty (Z.of_nat i + 1)))) <$> seq 0 n.

(** The two operations on the stock of one product, and a product after a
    sequence of them; an operation that raises has changed nothing. *)
Inductive stock_op : Type :=
  | Restock (amount : Z)
  | Sell (qty : Z).

Definition apply_op (op : stock_op) (p : Product) : Product :=
  match (match op with Restock amount => restock amount p | Sell qty => sell qty p end) with
  | Ok p' => p'
  | _ => p
  end.

(** The states a product goes through: after the first operation, after the
    second, and so on. *)
Fixpoint states_after (ops : list stock_op) (p : Product) : list Product :=
  match ops with
  | [] => []
  | op :: ops' => apply_op op p :: states_after ops' (apply_op op p)
  end.

(** ** Invariants of the data model *)

(** Every key of the store is the id of the product stored under it. *)
Definition store_wf (m : gmap string Product) : Prop :=
  ∀ k p, m !! k = Some p → product_id p = k.

#[global] Instance store_wf_dec (m : gmap string Product) : Decision (store_wf m) :=
  @map_Forall_dec _ _ _ _ _ _ _ _ _ _ _ _ (λ k p, product_id p = k)
    (λ k p, decide (product_id p = k)) m.


(** The file of the ledger agrees with the ledger: loading it gives the
    ledger back. *)
Definition ledger_synced (w : world) : Prop :=
  match sales_json w with
  | Some data => data = sales_log w
  | None => sales_log w = []
  end.

(** A method of the inventory: it leaves the ledger, its file and the clock
    as they are, whatever its outcome. *)
Definition inventory_only {A : Type} (m : M A) : Prop :=
  ∀ w, sales_log (snd (m w)) = sales_log w
       ∧ sales_json (snd (m w)) = sales_json w
       ∧ today (snd (m w)) = today w
       ∧ now (snd (m w)) = now w.

(** The ids of the records of the ledger are ["SALE_1"], ["SALE_2"], ... in
    this order. *)
Definition ledger_ok (w : world) : Prop :=
  sale_id <$> sales_log w = sale_ids (length (sales_log w)).

(** The state after a sale through the ledger that went through: the object
    sold is in its new state [p'], the file of the inventory has been
    rewritten, the record of the sale is the last one of the ledger, and the
    file of the ledger has been rewritten. *)
Definition sold_through (product_id : string) (p' : Product) (qty : Z)
    (w : world) : world :=
  let record :=
    sale_record (Z.of_nat (length (sales_log w))) product_id (name p') qty
                (price p' * of_int qty)%Qc (now w) in
  set_sales_json (Some (sales_log w ++ [record]))
    (set_sales_log (λ log, log ++ [record])
       (saved (set_products (insert product_id p') w))).

(** ** Sample data *)

Definition a_day : date := Date 2024 6 15 I.

Definition empty_world : world :=
  World ∅ [] None None a_day "2024-06-15T12:00:00".

Definition tablet : Product :=
  ElectronicProduct "e3" "Tablet" (Q2Qc 499.99) 5 1 "Samsung".

Definition tshirt : Product :=
  ClothingProduct "c1" "T-shirt" (Q2Qc 19.99) 3 "M" "Cotton".

Definition earphones : Product :=
  ElectronicProduct "c2" "Earphones" (Q2Qc 49.99) 2 1 "Sony".

Definition milk : Product :=
  mkProduct "g1" "Milk" (Q2Qc 2.99) 10 (Grocery (Date 2000 1 1 I)).

(** A grocery product that expires on [a_day]. *)
Definition yogurt : Product :=
  mkProduct "g2" "Yogurt" (Q2Qc 0.99) 6 (Grocery a_day).

(** A product of negative stock, which the constructor accepts. *)
Definition owed_cable : Product :=
  ElectronicProduct "e9" "Cable" (Q2Qc 1.5) (-5) 1 "Acme".

(** A product of negative price, which the constructor accepts. *)
Definition refund : Product :=
  ElectronicProduct "r1" "Refund" (Q2Qc (-1)) 4 0 "Acme".

(** The state after the products have been added to an empty inventory. *)
Definition shop (ps : list Product) : world :=
  run (AddProduct <$> ps) empty_world.

(** ** Searching and listing *)

(** [c.lower()] for a character, read as a code point below 256: Python
    lowers the letters A to Z and, from U+00C0 to U+00DE, all but the
    multiplication sign U+00D7, each to the code point 32 above it. *)
Definition lower_char (c : ascii) : ascii :=
  let n := nat_of_ascii c in
  if (((65 <=? n) && (n <=? 90)) || ((192 <=? n) && (n <=? 214))
      || ((216 <=? n) && (n <=? 222)))%nat
  then ascii_of_nat (n + 32) else c.

(** [s.lower()]. *)
Fixpoint lower (s : string) : string :=
  match s with
  | EmptyString => EmptyString
  | String c s' => String (lower_char c) (lower s')
  end.

(** [sub in s] on strings: [sub] starts at some position of [s]. *)
Fixpoint contains (sub s : string) : bool :=
  if String.prefix sub s then true
  else match s with
       | EmptyString => false
       | String _ s' => contains sub s'
       end.

(** [Inventory.search_by_name]. *)
Definition search_by_name (name0 : string) : M (list Product) :=
  gets (λ w, filter (λ p, Is_true (contains (lower name0) (lower (name p))))
                    (values (products w))).

(** [Inventory.search_by_type]. *)
Definition search_by_type (product_type : string) : M (list Product) :=
  gets (λ w, filter (λ p, class_name p = product_type) (values (products w))).

(** The values of the dictionaries of [get_details]: those of the files,
    and the booleans of [is_expired]. *)
Inductive detail : Type :=
  | Field (v : pyval)
  | Flag (b : bool).

(** [get_details] as each subclass defines it, given what [date.today()]
    returns. *)
Definition get_details (today : date) (p : Product) : gmap string detail :=
  let base : gmap string detail :=
    <["quantity" := Field (VInt (quantity p))]>
      (<["price" := Field (VFloat (price p))]>
         (<["name" := Field (VStr (name p))]>
            (<["product_id" := Field (VStr (product_id p))]> ∅))) in
  match class p with
  | Electronic warranty_years brand =>
      <["brand" := Field (VStr brand)]>
        (<["warranty_years" := Field (VInt warranty_years)]> base)
  | Clothing size material =>
      <["material" := Field (VStr material)]>
        (<["size" := Field (VStr size)]> base)
  | Grocery expiry_date =>
      <["is_expired" := Flag (is_expired today expiry_date)]>
        (<["expiry_date" := Field (VStr (isoformat expiry_date))]> base)
  end.

(** [Inventory.list_all_products]. *)
Definition list_all_products : M (list (gmap string detail)) :=
  gets (λ w, get_details (today w) <$> values (products w)).

(** ** The page "Manage Inventory" of [app.py] *)

(** The action of the button "Update Stock":
    [restock_product(product_id, new_quantity - get_product(product_id).quantity)].
    The argument is evaluated before the call. *)
Definition update_stock (product_id : string) (new_quantity : Z) : M unit :=
  found ← get_product product_id;
  match found with
  | None => raise (AttributeError "'NoneType' object has no attribute 'quantity'")
  | Some product => restock_product product_id (new_quantity - quantity product)
  end.

(** The ids the select box of the page offers:
    [[p['product_id'] for p in products]], over [list_all_products()]. *)
Definition offered_ids : M (list (option detail)) :=
  details ← list_all_products;
  mret ((λ d : gmap string detail, d !! "product_id") <$> details).

(** ** Loading, as a function of the file *)

(** The loop of [load_inventory] over the entries of the file, on the store
    alone: the outcome of the loop and the store it leaves. *)
Fixpoint load_entries (data : list pydict) (m : gmap string Product)
    : result unit * gmap string Product :=
  match data with
  | [] => (Ok tt, m)
  | item :: data' =>
      match product_of_dict item with
      | Ok p => load_entries data' (<[product_id p := p]> m)
      | Raise e => (Raise e, m)
      | Untyped k => (Untyped k, m)
      end
  end.

(** ** More invariants *)

(** No product of the store has a negative quantity. *)
Definition stock_ok (m : gmap string Product) : Prop :=
  ∀ k p, m !! k = Some p → 0 ≤ quantity p.

(** A call that brings a product of negative quantity into the store. *)
Definition adds_negative (c : command) : bool :=
  match c with
  | AddProduct product => quantity product <? 0
  | _ => false
  end.

(** The product [p'] is the product [p] but for its quantity. *)
Definition same_but_quantity (p p' : Product) : Prop :=
  product_id p' = product_id p ∧ name p' = name p ∧ price p' = price p
  ∧ class p' = class p.

(** A call that only moves stock, or time. *)
Definition moves_stock (c : command) : bool :=
  match c with
  | SellProduct _ _ | RestockProduct _ _ | ProcessSale _ _ | Tick _ _ => true
  | _ => false
  end.



(** * Properties *)

(** ** The state monad *)

Lemma bind_ok {A B : Type} (m : M A) (f : A → M B) (w w' : world) (a : A) :
  m w = (Ok a, w') → (m ≫= f) w = f a w'.
Proof. intros E. unfold mbind, M_bind. by rewrite E. Qed.

Lemma bind_raise {A B : Type} (m : M A) (f : A → M B) (w w' : world) (e : exn) :
  m w = (Raise e, w') → (m ≫= f) w = (Raise e, w').
Proof. intros E. unfold mbind, M_bind. by rewrite E. Qed.

Lemma save_inventory_ok (w : world) : save_inventory w = (Ok tt, saved w).
Proof. reflexivity. Qed.

(** ** Selling *)


(** When the method returns, [sell_product] returns the price times the
    quantity sold; the object of the store is in its new state and the file
    has been rewritten. *)
Lemma sell_product_returns (w : world) (pid : string) (p p' : Product) (q : Z) :
  products w !! pid = Some p → sell q p = Ok p' →
  sell_product pid q w
  = (Ok (price p' * of_int q)%Qc, saved (set_products (insert pid p') w)).
Proof.
  intros Hp Hs. unfold sell_product.
  rewrite (bind_ok _ _ w w (Some p)) by (unfold get_product, gets; by rewrite Hp).
  unfold call_on, lift. cbn. by rewrite Hs.
Qed.



Lemma sell_negative (p : Product) (q : Z) :
  q < 0 → sell q p = Raise (ValueError "Sell quantity cannot be negative").
Proof. intros Hq. unfold sell. by destruct (Z.ltb_spec q 0); [|lia]. Qed.

Lemma sell_beyond_stock (p : Product) (q : Z) :
  0 ≤ q → quantity p < q →
  sell q p = Raise (InsufficientStockError
                      ("Insufficient stock for " +:+ name p +:+ ". Available: "
                       +:+ pretty (quantity p))).
Proof.
  intros Hq Hs. unfold sell.
  destruct (Z.ltb_spec q 0); [lia|].
  by destruct (Z.gtb_spec q (quantity p)); [|lia].
Qed.

(** When the method raises, [sell_product] raises the same exception and
    nothing has changed: the method raises before it assigns, and the file
    is written after the call only. *)
Lemma sell_product_raises (w : world) (pid : string) (p : Product) (q : Z) (e : exn) :
  products w !! pid = Some p → sell q p = Raise e →
  sell_product pid q w = (Raise e, w).
Proof.
  intros Hp Hs. unfold sell_product.
  rewrite (bind_ok _ _ w w (Some p)) by (unfold get_product, gets; by rewrite Hp).
  unfold call_on, lift. cbn. by rewrite Hs.
Qed.

(** A negative quantity is refused by the check that comes first, whatever
    the stock, and nothing has changed. *)
Lemma sell_product_negative_quantity (w : world) (pid : string) (p : Product) (q : Z) :
  products w !! pid = Some p → q < 0 →
  sell_product pid q w = (Raise (ValueError "Sell quantity cannot be negative"), w).
Proof.
  intros Hp Hq. apply (sell_product_raises w pid p q _ Hp). by apply sell_negative.
Qed.

(** C2, as the code has it.  For a product of the store and a quantity [q]
    that is not negative and exceeds the stock of the product, [sell_product]
    raises [InsufficientStockError] and the whole state is as before: the
    quantity of the product, every other product, the ledger and both
    files. *)
Theorem sell_product_insufficient_stock (w : world) (pid : string) (p : Product) (q : Z) :
  products w !! pid = Some p →
  0 ≤ q →
  quantity p < q →
  sell_product pid q w
  = (Raise (InsufficientStockError
              ("Insufficient stock for " +:+ name p +:+ ". Available: "
               +:+ pretty (quantity p))), w).
Proof.
  intros Hp Hq Hs. apply (sell_product_raises w pid p q _ Hp).
  by apply sell_beyond_stock.
Qed.

(** Six tablets are asked of the shop, which has five. *)
Lemma sell_product_insufficient_stock_witness :
  sell_product "e3" 6 (shop [tablet])
  = (Raise (InsufficientStockError
              ("Insufficient stock for " +:+ name tablet +:+ ". Available: "
               +:+ pretty (quantity tablet))), shop [tablet]).
Proof.
  apply (sell_product_insufficient_stock (shop [tablet]) "e3" tablet 6).
  - reflexivity.
  - lia.
  - cbn. lia.
Defined.

(** C2, as stated, fails: the product [owed_cable] has the stock -5, which
    the constructor accepts, and the quantity -3 exceeds it; [sell_product]
    raises the [ValueError] of a negative quantity, not
    [InsufficientStockError]. *)
Lemma sell_product_beyond_negative_stock :
  ¬ (∀ (w : world) (pid : string) (p : Product) (q : Z),
       products w !! pid = Some p → quantity p < q →
       ∃ msg, sell_product pid q w = (Raise (InsufficientStockError msg), w)).
Proof.
  intros H.
  destruct (H (shop [owed_cable]) "e9" owed_cable (-3)) as [msg E].
  - reflexivity.
  - cbn. lia.
  - rewrite (sell_product_raises _ _ owed_cable (-3)
               (ValueError "Sell quantity cannot be negative")) in E;
      [discriminate | reflexivity | reflexivity].
Qed.





(** ** Adding and getting *)

Lemma get_product_ok (w : world) (pid : string) :
  get_product pid w = (Ok (products w !! pid), w).
Proof. reflexivity. Qed.

Lemma add_product_fresh (w : world) (p : Product) :
  products w !! product_id p = None →
  add_product p w = (Ok tt, saved (set_products (insert (product_id p) p) w)).
Proof.
  intros Hp. unfold add_product.
  rewrite (bind_ok _ _ w w None) by (by rewrite get_product_ok, Hp).
  reflexivity.
Qed.

Lemma add_product_present (w : world) (p q : Product) :
  products w !! product_id p = Some q →
  add_product p w
  = (Raise (DuplicateProductError
              ("Product with ID " +:+ product_id p +:+ " already exists")), w).
Proof.
  intros Hp. unfold add_product.
  rewrite (bind_ok _ _ w w (Some q)) by (by rewrite get_product_ok, Hp).
  reflexivity.
Qed.

(** C3.  When the id of the product is a key of the store, [add_product]
    raises [DuplicateProductError] and changes nothing; when it is not, the
    call succeeds and the store is the store before with the product
    inserted under its id. *)
Theorem add_product_duplicate_or_inserted (w : world) (p : Product) :
  (is_Some (products w !! product_id p) →
   add_product p w
   = (Raise (DuplicateProductError
               ("Product with ID " +:+ product_id p +:+ " already exists")), w))
  ∧ (products w !! product_id p = None →
     fst (add_product p w) = Ok tt
     ∧ products (snd (add_product p w)) = <[product_id p := p]> (products w)).
Proof.
  split.
  - intros [q Hq]. by apply (add_product_present w p q).
  - intros Hp. by rewrite (add_product_fresh w p Hp).
Qed.

(** C4.  After a product whose id is not in the store has been added,
    [get_product] of its id returns that product: its name, its price and
    its quantity are those of the product added.  For an id that is not in
    the store, [get_product] returns [None], raises nothing and changes
    nothing. *)
Theorem add_then_get_product (w : world) (p : Product) (pid : string) :
  (products w !! product_id p = None →
   ∃ got, fst ((add_product p;; get_product (product_id p)) w) = Ok (Some got)
          ∧ got = p
          ∧ name got = name p ∧ price got = price p ∧ quantity got = quantity p)
  ∧ (products w !! pid = None → get_product pid w = (Ok None, w)).
Proof.
  split.
  - intros Hp. exists p.
    rewrite (bind_ok _ _ w _ tt (add_product_fresh w p Hp)).
    rewrite get_product_ok. cbn. by rewrite lookup_insert_eq.
  - intros Hp. by rewrite get_product_ok, Hp.
Qed.

(** The tablet is added to the shop that has it, and to the empty shop. *)
Lemma add_product_duplicate_or_inserted_witness :
  add_product tablet (shop [tablet])
  = (Raise (DuplicateProductError
              ("Product with ID " +:+ product_id tablet +:+ " already exists")),
     shop [tablet])
  ∧ fst (add_product tablet empty_world) = Ok tt
  ∧ products (snd (add_product tablet empty_world))
    = <[product_id tablet := tablet]> (products empty_world).
Proof.
  split.
  - destruct (add_product_duplicate_or_inserted (shop [tablet]) tablet) as [H _].
    apply H. exists tablet. reflexivity.
  - destruct (add_product_duplicate_or_inserted empty_world tablet) as [_ H].
    apply H. reflexivity.
Defined.

(** The tablet is added to the empty shop and looked up. *)
Lemma add_then_get_product_witness :
  (∃ got, fst ((add_product tablet;; get_product (product_id tablet)) empty_world)
          = Ok (Some got)
          ∧ got = tablet
          ∧ name got = name tablet ∧ price got = price tablet
          ∧ quantity got = quantity tablet)
  ∧ get_product "e3" empty_world = (Ok None, empty_world).
Proof.
  destruct (add_then_get_product empty_world tablet "e3") as [H1 H2].
  split; [apply H1 | apply H2]; reflexivity.
Defined.

(** ** The value of the inventory *)









(** ** Price and quantity of a product *)

Lemma apply_op_keeps (op : stock_op) (p : Product) :
  0 ≤ quantity p →
  0 ≤ quantity (apply_op op p) ∧ price (apply_op op p) = price p.
Proof.
  intros Hp. unfold apply_op, restock, sell, set_quantity.
  destruct op as [amount|qty].
  - destruct (Z.ltb_spec amount 0); [done|].
    destruct (Z.ltb_spec (quantity p + amount) 0); [done|].
    cbn. split; [lia|done].
  - destruct (Z.ltb_spec qty 0); [done|].
    destruct (Z.gtb_spec qty (quantity p)); [done|].
    destruct (Z.ltb_spec (quantity p - qty) 0); [done|].
    cbn. split; [lia|done].
Qed.

(** C9, as the code has it.  The constructors check neither the price nor
    the quantity: a product has the price it was constructed with, whatever
    it is, and [restock] and [sell] never change it.  For a product whose
    quantity is not negative, the quantity is not negative after each
    operation of any sequence of [restock] and [sell], whether the operation
    returns or raises. *)
Theorem quantity_never_negative (ops : list stock_op) (p : Product) :
  0 ≤ quantity p →
  Forall (λ p', 0 ≤ quantity p' ∧ price p' = price p) (states_after ops p).
Proof.
  revert p. induction ops as [|op ops IH]; intros p Hp; cbn.
  - constructor.
  - destruct (apply_op_keeps op p Hp) as [Hq Hpr]. constructor; [done|].
    rewrite <- Hpr. by apply IH.
Qed.

(** Five operations on the tablet, two of which raise. *)
Lemma quantity_never_negative_witness :
  Forall (λ p', 0 ≤ quantity p' ∧ price p' = price tablet)
         (states_after [Sell 2; Sell 9; Restock 4; Restock (-1); Sell 7] tablet).
Proof.
  apply (quantity_never_negative
           [Sell 2; Sell 9; Restock 4; Restock (-1); Sell 7] tablet).
  cbn. lia.
Defined.

(** C9, as stated, fails: [refund] is constructed with the price -1, which
    is not positive. *)
Lemma constructed_with_negative_price :
  ¬ (∀ (product_id name : string) (price0 : Qc) (qty warranty_years : Z)
       (brand : string),
       (Q2Qc 0 < price (ElectronicProduct product_id name price0 qty
                          warranty_years brand))%Qc
       ∧ 0 ≤ quantity (ElectronicProduct product_id name price0 qty
                         warranty_years brand)).
Proof.
  intros H. destruct (H "r1" "Refund" (Q2Qc (-1)) 4 0 "Acme") as [Hprice _].
  revert Hprice. unfold Qclt, Qlt. vm_compute. discriminate.
Qed.

(** ** Dates and dictionaries: writing and reading back *)

Lemma digit_val_char (n : Z) : digit_val (digit_char n) = Some (n mod 10).
Proof.
  unfold digit_val, digit_char.
  assert (0 ≤ n mod 10 < 10) as Hn by (apply Z.mod_pos_bound; lia).
  rewrite nat_ascii_embedding by lia.
  rewrite Z2Nat.id by lia.
  destruct (Z.leb_spec 48 (48 + n mod 10)); [|lia].
  destruct (Z.leb_spec (48 + n mod 10) 57); [|lia].
  cbn. f_equal. lia.
Qed.

Lemma four_digits (y : Z) :
  0 ≤ y < 10000 →
  10 * (10 * (10 * (10 * 0 + (y / 10 / 10 / 10) mod 10) + (y / 10 / 10) mod 10)
        + (y / 10) mod 10) + y mod 10 = y.
Proof. intros Hy. Z.to_euclidean_division_equations. lia. Qed.

Lemma two_digits (m : Z) :
  0 ≤ m < 100 → 10 * (10 * 0 + (m / 10) mod 10) + m mod 10 = m.
Proof. intros Hm. Z.to_euclidean_division_equations. lia. Qed.

(** The ten characters of [isoformat]. *)
Lemma isoformat_chars (d : date) :
  isoformat d
  = String (digit_char (year d / 10 / 10 / 10))
      (String (digit_char (year d / 10 / 10))
         (String (digit_char (year d / 10))
            (String (digit_char (year d))
               (String "-"
                  (String (digit_char (month d / 10))
                     (String (digit_char (month d))
                        (String "-"
                           (String (digit_char (day d / 10))
                              (String (digit_char (day d)) EmptyString))))))))).
Proof. reflexivity. Qed.

Lemma valid_ymd_bounds (y m d : Z) :
  Is_true (valid_ymd y m d) → 0 ≤ y < 10000 ∧ 0 ≤ m < 100 ∧ 0 ≤ d < 100.
Proof.
  unfold valid_ymd, days_in_month. intros H.
  repeat (apply andb_prop_elim in H as [H ?]).
  repeat match goal with
         | H : Is_true (_ <=? _) |- _ => apply Is_true_true, Z.leb_le in H
         end.
  repeat case_match; lia.
Qed.

Lemma date_eq (a b : date) :
  year a = year b → month a = month b → day a = day b → a = b.
Proof.
  destruct a as [y m d ok], b as [y' m' d' ok']. cbn. intros -> -> ->.
  f_equal. apply proof_irrel.
Qed.

(** [fromisoformat] reads back the date [isoformat] wrote. *)
Lemma fromisoformat_isoformat (d : date) : fromisoformat (isoformat d) = Some d.
Proof.
  rewrite isoformat_chars. destruct d as [y m d ok]. cbn [year month day].
  destruct (valid_ymd_bounds y m d ok) as (Hy & Hm & Hd).
  unfold fromisoformat.
  cbn [String.length String.substring digits_val].
  rewrite !digit_val_char.
  rewrite (four_digits y Hy), (two_digits m Hm), (two_digits d Hd).
  rewrite !decide_True by done.
  destruct (decide (Is_true (valid_ymd y m d))) as [ok'|]; [|done].
  f_equal. by apply date_eq.
Qed.

(** The entries of the dictionary of a product that the base class writes. *)
Lemma to_dict_base (p : Product) :
  to_dict p !! "type" = Some (VStr (class_name p))
  ∧ to_dict p !! "product_id" = Some (VStr (product_id p))
  ∧ to_dict p !! "name" = Some (VStr (name p))
  ∧ to_dict p !! "price" = Some (VFloat (price p))
  ∧ to_dict p !! "quantity" = Some (VInt (quantity p)).
Proof.
  destruct p as [pid nm pr qty [w b|sz mat|d]];
    unfold to_dict, base_dict; cbn; repeat split; by simplify_map_eq.
Qed.

(** The body of the loop of [load_inventory] rebuilds a product from its
    dictionary. *)
Lemma product_of_dict_rebuilds (p : Product) : product_of_dict (to_dict p) = Ok p.
Proof.
  destruct (to_dict_base p) as (Ht & Hi & Hn & Hp & Hq).
  unfold product_of_dict, str_field, int_field, float_field, getitem.
  rewrite Ht, Hi, Hn, Hp, Hq.
  destruct p as [pid nm pr qty [w b|sz mat|d]]; cbn.
  - unfold to_dict, base_dict; cbn. by simplify_map_eq.
  - unfold to_dict, base_dict; cbn. by simplify_map_eq.
  - unfold to_dict, base_dict; cbn. simplify_map_eq.
    unfold GroceryProduct. by rewrite fromisoformat_isoformat.
Qed.

(** C7.  For a product of any of the three classes, the body of the loop of
    [load_inventory], which chooses the constructor by the entry ["type"],
    applied to the dictionary [to_dict] makes of the product, rebuilds that
    product: the same class and the same value of every field. *)
Theorem product_of_dict_to_dict (p : Product) :
  product_of_dict (to_dict p) = Ok p
  ∧ ∀ p', product_of_dict (to_dict p) = Ok p' →
      class_name p' = class_name p ∧ product_id p' = product_id p
      ∧ name p' = name p ∧ price p' = price p ∧ quantity p' = quantity p
      ∧ class p' = class p.
Proof.
  split; [apply product_of_dict_rebuilds|].
  intros p' E. rewrite product_of_dict_rebuilds in E. by injection E as <-.
Qed.

(** One product of each class, by evaluation. *)
Example product_of_dict_to_dict_samples :
  product_of_dict (to_dict tablet) = Ok tablet
  ∧ product_of_dict (to_dict tshirt) = Ok tshirt
  ∧ product_of_dict (to_dict milk) = Ok milk
  ∧ to_dict milk !! "type" = Some (VStr "GroceryProduct")
  ∧ to_dict milk !! "expiry_date" = Some (VStr "2000-01-01").
Proof. repeat split; vm_compute; reflexivity. Qed.

(** ** Methods of the inventory leave the ledger alone *)

Lemma inventory_only_ret {A : Type} (a : A) : inventory_only (mret a).
Proof. by intros w. Qed.

Lemma inventory_only_raise {A : Type} (e : exn) : inventory_only (raise (A := A) e).
Proof. by intros w. Qed.

Lemma inventory_only_lift {A : Type} (r : result A) : inventory_only (lift r).
Proof. by intros w. Qed.

Lemma inventory_only_gets {A : Type} (f : world → A) : inventory_only (gets f).
Proof. by intros w. Qed.

Lemma inventory_only_set_products (f : gmap string Product → gmap string Product) :
  inventory_only (modify (set_products f)).
Proof. by intros w. Qed.

Lemma inventory_only_save : inventory_only save_inventory.
Proof. by intros w. Qed.

Lemma inventory_only_bind {A B : Type} (m : M A) (f : A → M B) :
  inventory_only m → (∀ a, inventory_only (f a)) → inventory_only (m ≫= f).
Proof.
  intros Hm Hf w. specialize (Hm w). unfold mbind, M_bind.
  destruct (m w) as [[a|e|k] w1]; cbn in Hm; [|done..].
  destruct (Hf a w1) as (? & ? & ? & ?), Hm as (? & ? & ? & ?).
  repeat split; congruence.
Qed.

Lemma inventory_only_try {A : Type} (m : M A) (h : exn → M A) :
  inventory_only m → (∀ e, inventory_only (h e)) → inventory_only (try_except m h).
Proof.
  intros Hm Hh w. specialize (Hm w). unfold try_except.
  destruct (m w) as [[a|e|k] w1]; cbn in Hm; [done| |done].
  destruct (Hh e w1) as (? & ? & ? & ?), Hm as (? & ? & ? & ?).
  repeat split; congruence.
Qed.

Lemma inventory_only_for_each {A : Type} (l : list A) (body : A → M unit) :
  (∀ x, inventory_only (body x)) → inventory_only (for_each l body).
Proof.
  intros Hb. induction l as [|x l IH]; cbn.
  - apply inventory_only_ret.
  - apply inventory_only_bind; [apply Hb | by intros _].
Qed.

Create HintDb inventory.

#[local] Hint Resolve inventory_only_ret inventory_only_raise inventory_only_lift
  inventory_only_gets inventory_only_set_products inventory_only_save
  inventory_only_bind inventory_only_try inventory_only_for_each : inventory.

#[local] Hint Extern 1 (inventory_only (match ?x with _ => _ end)) =>
  destruct x : inventory.

Lemma inventory_only_add (p : Product) : inventory_only (add_product p).
Proof. unfold add_product, get_product. eauto 10 with inventory. Qed.

Lemma inventory_only_remove (pid : string) : inventory_only (remove_product pid).
Proof. unfold remove_product, get_product. eauto 10 with inventory. Qed.

Lemma inventory_only_sell (pid : string) (q : Z) : inventory_only (sell_product pid q).
Proof. unfold sell_product, call_on, get_product. eauto 12 with inventory. Qed.

Lemma inventory_only_restock (pid : string) (q : Z) :
  inventory_only (restock_product pid q).
Proof. unfold restock_product, call_on, get_product. eauto 12 with inventory. Qed.

Lemma inventory_only_remove_expired : inventory_only remove_expired_products.
Proof.
  unfold remove_expired_products.
  eauto 10 using inventory_only_remove with inventory.
Qed.

Lemma inventory_only_load : inventory_only load_inventory.
Proof. unfold load_inventory. eauto 12 with inventory. Qed.

(** ** The ledger *)

Lemma sell_typed (q : Z) (p : Product) (k : string) : sell q p ≠ Untyped k.
Proof. unfold sell, set_quantity. by repeat case_match. Qed.

(** The three ways [sell_product] ends. *)
Lemma sell_product_cases (w : world) (pid : string) (q : Z) :
  (products w !! pid = None ∧ sell_product pid q w = (Raise (not_found pid), w))
  ∨ (∃ p e, products w !! pid = Some p ∧ sell q p = Raise e
            ∧ sell_product pid q w = (Raise e, w))
  ∨ (∃ p p', products w !! pid = Some p ∧ sell q p = Ok p'
             ∧ sell_product pid q w
               = (Ok (price p' * of_int q)%Qc,
                  saved (set_products (insert pid p') w))).
Proof.
  destruct (products w !! pid) as [p|] eqn:Hp.
  - destruct (sell q p) as [p'|e|k] eqn:Hs.
    + right; right. exists p, p'. by rewrite (sell_product_returns w pid p p' q).
    + right; left. exists p, e. by rewrite (sell_product_raises w pid p q e).
    + by destruct (sell_typed q p k).
  - left. split; [done|]. unfold sell_product.
    by rewrite (bind_ok _ _ w w None) by (by rewrite get_product_ok, Hp).
Qed.

(** The two ways [process_sale] ends: it raises what [sell_product] raises
    and nothing has changed, or the sale goes through. *)
Lemma process_sale_cases (w : world) (pid : string) (q : Z) :
  (∃ e, process_sale pid q w = (Raise e, w))
  ∨ (∃ p p', products w !! pid = Some p ∧ sell q p = Ok p'
             ∧ process_sale pid q w
               = (Ok (price p' * of_int q)%Qc, sold_through pid p' q w)).
Proof.
  destruct (sell_product_cases w pid q)
    as [[_ E]|[(p & e & _ & _ & E)|(p & p' & Hp & Hs & E)]].
  - left. eexists. unfold process_sale. by rewrite (bind_raise _ _ _ _ _ E).
  - left. eexists. unfold process_sale. by rewrite (bind_raise _ _ _ _ _ E).
  - right. exists p, p'. split; [done|]. split; [done|].
    unfold process_sale. rewrite (bind_ok _ _ _ _ _ E).
    unfold mbind, M_bind, gets, get_product. cbn.
    by rewrite lookup_insert_eq.
Qed.

Lemma sale_ids_S (n : nat) :
  sale_ids (S n) = sale_ids n ++ [Some (VStr ("SALE_" +:+ pretty (Z.of_nat n + 1)))].
Proof. unfold sale_ids. by rewrite seq_S, fmap_app. Qed.

Lemma sale_id_sale_record (len : Z) (pid nm : string) (q : Z) (t : Qc) (ts : string) :
  sale_id (sale_record len pid nm q t ts) = Some (VStr ("SALE_" +:+ pretty (len + 1))).
Proof. unfold sale_id, sale_record. by simplify_map_eq. Qed.

(** What a call does to the ledger: a sale that goes through appends one
    record, whose id is made of the new length, and rewrites the file; any
    other call, and a sale that raises, leaves both as they are. *)
Lemma exec_ledger (c : command) (w : world) :
  (sale_succeeds c w = true
   ∧ ∃ r, sales_log (exec c w) = sales_log w ++ [r]
          ∧ sale_id r = Some (VStr ("SALE_" +:+ pretty (Z.of_nat (length (sales_log w)) + 1)))
          ∧ sales_json (exec c w) = Some (sales_log (exec c w)))
  ∨ (sale_succeeds c w = false
     ∧ sales_log (exec c w) = sales_log w
     ∧ sales_json (exec c w) = sales_json w).
Proof.
  destruct c as [p|pid|pid q|pid q| |pid q|d t]; cbn; [| | | | | |by right].
  - right. by destruct (inventory_only_add p w) as (? & ? & _).
  - right. by destruct (inventory_only_remove pid w) as (? & ? & _).
  - right. by destruct (inventory_only_sell pid q w) as (? & ? & _).
  - right. by destruct (inventory_only_restock pid q w) as (? & ? & _).
  - right. by destruct (inventory_only_remove_expired w) as (? & ? & _).
  - destruct (process_sale_cases w pid q) as [[e E]|(p & p' & _ & _ & E)];
      rewrite E; cbn.
    + by right.
    + left. split; [done|]. eexists. split; [done|].
      by rewrite sale_id_sale_record.
Qed.

Lemma exec_ledger_ok (c : command) (w : world) :
  ledger_ok w → ledger_synced w →
  length (sales_log (exec c w))
  = (length (sales_log w) + (if sale_succeeds c w then 1 else 0))%nat
  ∧ ledger_ok (exec c w) ∧ ledger_synced (exec c w).
Proof.
  unfold ledger_ok, ledger_synced. intros Hok Hsync.
  destruct (exec_ledger c w) as [(-> & r & -> & Hr & ->)|(-> & -> & ->)].
  - rewrite length_app, fmap_app, Hok. cbn [length fmap list_fmap].
    replace (length (sales_log w) + 1)%nat with (S (length (sales_log w))) by lia.
    by rewrite sale_ids_S, Hr.
  - by rewrite Nat.add_0_r.
Qed.

Lemma run_ledger_ok (cs : list command) (w : world) :
  ledger_ok w → ledger_synced w →
  length (sales_log (run cs w)) = (length (sales_log w) + successful_sales cs w)%nat
  ∧ ledger_ok (run cs w) ∧ ledger_synced (run cs w).
Proof.
  revert w. induction cs as [|c cs IH]; intros w Hok Hsync; cbn.
  - by rewrite Nat.add_0_r.
  - destruct (exec_ledger_ok c w Hok Hsync) as (Hlen & Hok' & Hsync').
    destruct (IH (exec c w) Hok' Hsync') as (Hlen' & ? & ?).
    split; [|done]. unfold run in Hlen'. rewrite Hlen', Hlen. lia.
Qed.

(** A new [Sales] object on a file that agrees with the ledger has that
    ledger. *)
Lemma Sales_init_synced (w : world) :
  ledger_synced w → sales_log (snd (Sales_init w)) = sales_log w.
Proof.
  unfold ledger_synced, Sales_init, load_sales. intros H.
  unfold mbind, M_bind, modify, gets. cbn.
  destruct (sales_json w) as [data|]; cbn; by rewrite H.
Qed.

(** C8.  A call of [process_sale] that returns has appended exactly one
    record to the ledger; the [sale_id] of the record is ["SALE_"] followed
    by the new length of the ledger; the file holds the new ledger, and a
    [Sales] object made from the file has the same ledger.  In a run of calls
    that starts with an empty ledger (and no file, or a file of no record),
    the ledger has one record for each sale that went through, their ids are
    ["SALE_1"], ..., ["SALE_n"] in this order, and a [Sales] object made from
    the file after the run has the same ledger. *)
Theorem process_sale_appends_sequential_ids :
  (∀ (w : world) (pid : string) (q : Z) (total : Qc),
     fst (process_sale pid q w) = Ok total →
     ∃ r, sales_log (snd (process_sale pid q w)) = sales_log w ++ [r]
          ∧ sale_id r
            = Some (VStr ("SALE_" +:+
                          pretty (Z.of_nat (length (sales_log (snd (process_sale pid q w)))))))
          ∧ sales_json (snd (process_sale pid q w))
            = Some (sales_log (snd (process_sale pid q w)))
          ∧ sales_log (snd (Sales_init (snd (process_sale pid q w))))
            = sales_log (snd (process_sale pid q w)))
  ∧ (∀ (cs : list command) (w : world),
       sales_log w = [] → ledger_synced w →
       length (sales_log (run cs w)) = successful_sales cs w
       ∧ sale_id <$> sales_log (run cs w) = sale_ids (successful_sales cs w)
       ∧ sales_log (snd (Sales_init (run cs w))) = sales_log (run cs w)).
Proof.
  split.
  - intros w pid q total Hok.
    destruct (process_sale_cases w pid q) as [[e E]|(p & p' & _ & _ & E)];
      rewrite E in Hok |- *; [done|].
    eexists. split; [done|]. cbn. rewrite sale_id_sale_record.
    split; [|split; [done|]].
    + rewrite length_app. cbn. do 4 f_equal. lia.
    + apply Sales_init_synced. by unfold ledger_synced.
  - intros cs w Hnil Hsync.
    destruct (run_ledger_ok cs w) as (Hlen & Hok & Hsync').
    { unfold ledger_ok. by rewrite Hnil. }
    { done. }
    rewrite Hnil in Hlen. cbn in Hlen.
    split; [done|]. split.
    + unfold ledger_ok in Hok. by rewrite Hok, Hlen.
    + by apply Sales_init_synced.
Qed.

(** Three sales of tablets through the ledger, the second of which raises. *)
Lemma process_sale_appends_sequential_ids_witness :
  (∃ r, sales_log (snd (process_sale "e3" 2 (shop [tablet])))
        = sales_log (shop [tablet]) ++ [r]
        ∧ sale_id r
          = Some (VStr ("SALE_" +:+
                        pretty (Z.of_nat
                                  (length (sales_log
                                             (snd (process_sale "e3" 2 (shop [tablet]))))))))
        ∧ sales_json (snd (process_sale "e3" 2 (shop [tablet])))
          = Some (sales_log (snd (process_sale "e3" 2 (shop [tablet]))))
        ∧ sales_log (snd (Sales_init (snd (process_sale "e3" 2 (shop [tablet])))))
          = sales_log (snd (process_sale "e3" 2 (shop [tablet]))))
  ∧ (length (sales_log (run [ProcessSale "e3" 2; ProcessSale "e3" 9;
                             ProcessSale "e3" 1] (shop [tablet])))
     = successful_sales [ProcessSale "e3" 2; ProcessSale "e3" 9;
                         ProcessSale "e3" 1] (shop [tablet])
     ∧ sale_id <$> sales_log (run [ProcessSale "e3" 2; ProcessSale "e3" 9;
                                   ProcessSale "e3" 1] (shop [tablet]))
       = sale_ids (successful_sales [ProcessSale "e3" 2; ProcessSale "e3" 9;
                                     ProcessSale "e3" 1] (shop [tablet]))
     ∧ sales_log (snd (Sales_init (run [ProcessSale "e3" 2; ProcessSale "e3" 9;
                                        ProcessSale "e3" 1] (shop [tablet]))))
       = sales_log (run [ProcessSale "e3" 2; ProcessSale "e3" 9;
                         ProcessSale "e3" 1] (shop [tablet])))
  ∧ sale_ids (successful_sales [ProcessSale "e3" 2; ProcessSale "e3" 9;
                                ProcessSale "e3" 1] (shop [tablet]))
    = [Some (VStr "SALE_1"); Some (VStr "SALE_2")].
Proof.
  destruct process_sale_appends_sequential_ids as [H1 H2].
  split; [|split].
  - apply (H1 (shop [tablet]) "e3" 2 (price tablet * of_int 2)%Qc). reflexivity.
  - apply (H2 _ (shop [tablet])); reflexivity.
  - reflexivity.
Defined.

(** ** Removing the expired products *)

Lemma date_ltb_irrefl (d : date) : date_ltb d d = false.
Proof.
  unfold date_ltb.
  rewrite !Z.ltb_irrefl, !Z.eqb_refl. reflexivity.
Qed.

Lemma remove_product_present (w : world) (pid : string) (p : Product) :
  products w !! pid = Some p →
  remove_product pid w = (Ok tt, saved (set_products (delete pid) w)).
Proof.
  intros Hp. unfold remove_product.
  by rewrite (bind_ok _ _ w w (Some p)) by (by rewrite get_product_ok, Hp).
Qed.

Lemma remove_product_absent (w : world) (pid : string) :
  products w !! pid = None →
  remove_product pid w = (Raise (not_found pid), w).
Proof.
  intros Hp. unfold remove_product.
  by rewrite (bind_ok _ _ w w None) by (by rewrite get_product_ok, Hp).
Qed.

(** The loop of [remove_expired_products] over ids that are all in the
    store, none of them twice: every call of [remove_product] returns, and
    the ids of the list are gone from the store, which is otherwise as it
    was. *)
Lemma for_each_remove_product (l : list string) (w : world) :
  NoDup l →
  (∀ k, k ∈ l → is_Some (products w !! k)) →
  fst (for_each l remove_product w) = Ok tt
  ∧ ∀ k, products (snd (for_each l remove_product w)) !! k
         = if decide (k ∈ l) then None else products w !! k.
Proof.
  revert w. induction l as [|pid l IH]; intros w Hnd Hin.
  - cbn. split; [done|]. intros k. rewrite decide_False; [done|apply not_elem_of_nil].
  - apply list.NoDup_cons in Hnd as [Hpid Hnd].
    destruct (Hin pid) as [p Hp]; [apply list_elem_of_here|].
    cbn [for_each].
    rewrite (bind_ok _ _ _ _ _ (remove_product_present w pid p Hp)).
    destruct (IH (saved (set_products (delete pid) w)) Hnd) as [Hok Hlook].
    { intros k Hk. cbn. rewrite lookup_delete_ne by (by intros ->).
      by apply Hin, list_elem_of_further. }
    split; [done|]. intros k. rewrite Hlook. cbn.
    destruct (decide (k = pid)) as [->|Hne].
    + rewrite lookup_delete_eq.
      rewrite (decide_True _ _ (list_elem_of_here pid l)). by case_decide.
    + rewrite lookup_delete_ne by done.
      destruct (decide (k ∈ l)) as [Hk|Hk].
      * by rewrite (decide_True _ _ (list_elem_of_further k pid l Hk)).
      * rewrite decide_False; [done|]. rewrite elem_of_cons. by intros [?|?].
Qed.

(** In a store whose keys are the ids of its products, the ids of a part of
    the values are the keys of the same part of the entries. *)
Lemma ids_of_filtered_values (P : Product → Prop) `{!∀ p, Decision (P p)}
    (l : list (string * Product)) :
  Forall (λ kp, product_id kp.2 = kp.1) l →
  product_id <$> filter P l.*2 = (filter (λ kp, P kp.2) l).*1.
Proof.
  induction 1 as [|[k p] l Hkp _ IH]; [done|].
  cbn in Hkp. rewrite fmap_cons. cbn [snd].
  rewrite !filter_cons. cbn [snd]. case_decide; cbn; by rewrite ?IH, ?Hkp.
Qed.

Lemma store_wf_entries (m : gmap string Product) :
  store_wf m → Forall (λ kp, product_id kp.2 = kp.1) (map_to_list m).
Proof.
  intros Hwf. apply list.Forall_forall. intros [k p] Hkp.
  apply elem_of_map_to_list in Hkp. by apply Hwf.
Qed.

(** What [expired_ids] holds, in a store whose keys are the ids of its
    products: the keys of the expired grocery products, each once. *)
Lemma expired_ids_spec (w : world) :
  store_wf (products w) →
  NoDup (expired_ids w)
  ∧ ∀ k, k ∈ expired_ids w
         ↔ ∃ p, products w !! k = Some p ∧ expired_grocery (today w) p = true.
Proof.
  intros Hwf. unfold expired_ids, values.
  rewrite (ids_of_filtered_values _ _ (store_wf_entries _ Hwf)). split.
  - apply (sublist_NoDup _ (map_to_list (products w)).*1).
    + apply NoDup_fst_map_to_list.
    + apply fmap_sublist, sublist_filter.
  - intros k. rewrite list_elem_of_fmap. split.
    + intros [[k' p] [-> Hkp]]. apply list_elem_of_filter in Hkp as [Hexp Hkp].
      apply elem_of_map_to_list in Hkp. exists p. split; [done|].
      by apply Is_true_true.
    + intros (p & Hp & Hexp). exists (k, p). split; [done|].
      apply list_elem_of_filter. split.
      * by apply Is_true_true.
      * by apply elem_of_map_to_list.
Qed.

(** The store after [remove_expired_products], in a store whose keys are
    the ids of its products. *)
Lemma remove_expired_products_store (w : world) :
  store_wf (products w) →
  fst (remove_expired_products w) = Ok tt
  ∧ ∀ k, products (snd (remove_expired_products w)) !! k
         = match products w !! k with
           | Some p =>
               match class p with
               | Grocery expiry_date =>
                   if date_ltb expiry_date (today w) then None else Some p
               | _ => Some p
               end
           | None => None
           end.
Proof.
  intros Hwf. destruct (expired_ids_spec w Hwf) as [Hnd Hin].
  unfold remove_expired_products.
  rewrite (bind_ok _ _ w w (expired_ids w)) by done.
  destruct (for_each_remove_product (expired_ids w) w Hnd) as [Hok Hlook].
  { intros k Hk. apply Hin in Hk as (p & -> & _). by eexists. }
  split; [done|]. intros k. rewrite Hlook.
  destruct (products w !! k) as [p|] eqn:Hp.
  - assert (expired_grocery (today w) p
            = match class p with
              | Grocery d => date_ltb d (today w)
              | _ => false
              end) as Hexp by done.
    destruct (decide (k ∈ expired_ids w)) as [Hk|Hk].
    + apply Hin in Hk as (p' & Hp' & Hk). rewrite Hp in Hp'.
      injection Hp' as <-. rewrite Hexp in Hk. by repeat case_match.
    + destruct (expired_grocery (today w) p) eqn:Hk'.
      * destruct Hk. apply Hin. by exists p.
      * rewrite Hexp in Hk'. by repeat case_match.
  - by case_decide.
Qed.

(** ** The keys of the store are the ids of its products *)

Lemma store_wf_empty : store_wf ∅.
Proof. intros k p Hp. by rewrite lookup_empty in Hp. Qed.

Lemma store_wf_insert (m : gmap string Product) (k : string) (p : Product) :
  product_id p = k → store_wf m → store_wf (<[k := p]> m).
Proof.
  intros Hk Hwf k' p' Hp'. destruct (decide (k = k')) as [<-|Hne].
  - rewrite lookup_insert_eq in Hp'. by injection Hp' as <-.
  - rewrite lookup_insert_ne in Hp' by done. by apply Hwf.
Qed.

Lemma store_wf_delete (m : gmap string Product) (k : string) :
  store_wf m → store_wf (delete k m).
Proof.
  intros Hwf k' p' Hp'. destruct (decide (k = k')) as [<-|Hne].
  - by rewrite lookup_delete_eq in Hp'.
  - rewrite lookup_delete_ne in Hp' by done. by apply Hwf.
Qed.

Lemma sell_keeps_id (q : Z) (p p' : Product) :
  sell q p = Ok p' → product_id p' = product_id p.
Proof.
  unfold sell, set_quantity. repeat case_match; try done. by intros [= <-].
Qed.

Lemma restock_keeps_id (amount : Z) (p p' : Product) :
  restock amount p = Ok p' → product_id p' = product_id p.
Proof.
  unfold restock, set_quantity. repeat case_match; try done. by intros [= <-].
Qed.

(** The store after [restock_product]: as before, or with the object under
    [pid] in the state [restock] left it in. *)
Lemma restock_product_store (w : world) (pid : string) (q : Z) :
  products (snd (restock_product pid q w)) = products w
  ∨ ∃ p p', products w !! pid = Some p ∧ restock q p = Ok p'
            ∧ products (snd (restock_product pid q w)) = <[pid := p']> (products w).
Proof.
  unfold restock_product.
  rewrite (bind_ok _ _ w w (products w !! pid)) by apply get_product_ok.
  destruct (products w !! pid) as [p|] eqn:Hp; [|by left].
  unfold call_on, lift, mbind, M_bind. cbn.
  destruct (restock q p) as [p'|e|k] eqn:Hr; cbn; [|by left..].
  right. by exists p, p'.
Qed.

(** Every call keeps the keys of the store the ids of its products. *)
Lemma exec_store_wf (c : command) (w : world) :
  store_wf (products w) → store_wf (products (exec c w)).
Proof.
  intros Hwf. destruct c as [p|pid|pid q|pid q| |pid q|d t]; cbn; [| | | | | |done].
  - destruct (products w !! product_id p) as [p0|] eqn:Hp.
    + by rewrite (add_product_present w p p0 Hp).
    + rewrite (add_product_fresh w p Hp). cbn. by apply store_wf_insert.
  - destruct (products w !! pid) as [p0|] eqn:Hp.
    + rewrite (remove_product_present w pid p0 Hp). cbn. by apply store_wf_delete.
    + by rewrite (remove_product_absent w pid Hp).
  - destruct (sell_product_cases w pid q)
      as [[_ E]|[(p & e & _ & _ & E)|(p & p' & Hp & Hs & E)]]; rewrite E; cbn;
      [done..|].
    apply store_wf_insert; [|done].
    rewrite (sell_keeps_id q p p' Hs). by apply Hwf.
  - destruct (restock_product_store w pid q) as [->|(p & p' & Hp & Hr & ->)]; [done|].
    apply store_wf_insert; [|done].
    rewrite (restock_keeps_id q p p' Hr). by apply Hwf.
  - destruct (remove_expired_products_store w Hwf) as [_ Hlook].
    intros k p Hp. rewrite Hlook in Hp. apply Hwf.
    destruct (products w !! k) as [p0|]; [|done]. by repeat case_match; simplify_eq.
  - destruct (process_sale_cases w pid q) as [[e E]|(p & p' & Hp & Hs & E)];
      rewrite E; cbn; [done|].
    apply store_wf_insert; [|done].
    rewrite (sell_keeps_id q p p' Hs). by apply Hwf.
Qed.

(** So does every run. *)
Lemma run_store_wf (cs : list command) (w : world) :
  store_wf (products w) → store_wf (products (run cs w)).
Proof.
  revert w. induction cs as [|c cs IH]; intros w Hwf; [done|].
  cbn. by apply IH, exec_store_wf.
Qed.

(** A new [Inventory], whatever the file holds, has a store whose keys are
    the ids of its products: [load_inventory] stores each product it builds
    under the id of the product. *)
Lemma for_each_load_store_wf (data : list pydict) (w : world) :
  store_wf (products w) →
  store_wf (products (snd (for_each data (λ item,
     product ← lift (product_of_dict item);
     modify (set_products (insert (product_id product) product))) w))).
Proof.
  revert w. induction data as [|item data IH]; intros w Hwf; [done|].
  cbn [for_each]. unfold mbind at 1, M_bind at 1.
  unfold mbind at 1, M_bind at 1, lift.
  destruct (product_of_dict item) as [p|e|k]; cbn; [|done..].
  apply IH. by apply store_wf_insert.
Qed.

Lemma Inventory_init_store_wf (w : world) :
  store_wf (products (snd (Inventory_init w))).
Proof.
  unfold Inventory_init, load_inventory, mbind, M_bind, modify, gets. cbn.
  destruct (inventory_json w) as [data|]; cbn; [|apply store_wf_empty].
  unfold try_except.
  pose proof (for_each_load_store_wf data (set_products (λ _, ∅) w) store_wf_empty)
    as Hwf.
  unfold mbind, M_bind in Hwf.
  destruct (for_each data _ _) as [[[]|e|k] w']; done.
Qed.

(** C6.  In a store whose keys are the ids of its products (every store the
    program builds: [Inventory_init_store_wf], [run_store_wf]),
    [remove_expired_products] returns, and afterwards the store holds a
    product under a key exactly when it held it before and the product is
    not a grocery product whose expiry date is before the date of today:
    those are gone, every other product is there, the same in every field,
    and nothing has come in.  The ledger, its file and the clock are as they
    were. *)
Theorem remove_expired_products_exact (w : world) :
  store_wf (products w) →
  fst (remove_expired_products w) = Ok tt
  ∧ (∀ k, products (snd (remove_expired_products w)) !! k
          = match products w !! k with
            | Some p =>
                match class p with
                | Grocery expiry_date =>
                    if date_ltb expiry_date (today w) then None else Some p
                | _ => Some p
                end
            | None => None
            end)
  ∧ sales_log (snd (remove_expired_products w)) = sales_log w
  ∧ sales_json (snd (remove_expired_products w)) = sales_json w.
Proof.
  intros Hwf. destruct (remove_expired_products_store w Hwf) as [Hok Hlook].
  destruct (inventory_only_remove_expired w) as (Hlog & Hfile & _).
  done.
Qed.

(** The sweep of the shop that holds expired milk and a tablet. *)
Lemma remove_expired_products_exact_witness :
  fst (remove_expired_products (shop [milk; tablet])) = Ok tt
  ∧ (∀ k, products (snd (remove_expired_products (shop [milk; tablet]))) !! k
          = match products (shop [milk; tablet]) !! k with
            | Some p =>
                match class p with
                | Grocery expiry_date =>
                    if date_ltb expiry_date (today (shop [milk; tablet]))
                    then None else Some p
                | _ => Some p
                end
            | None => None
            end)
  ∧ sales_log (snd (remove_expired_products (shop [milk; tablet])))
    = sales_log (shop [milk; tablet])
  ∧ sales_json (snd (remove_expired_products (shop [milk; tablet])))
    = sales_json (shop [milk; tablet]).
Proof.
  apply (remove_expired_products_exact (shop [milk; tablet])).
  apply (bool_decide_unpack _). vm_compute. exact I.
Defined.

(** In the shop that holds [milk], expired since 2000, and [tablet], the
    milk is gone after the sweep and the tablet is there as it was. *)
Example remove_expired_products_milk :
  products (snd (remove_expired_products (shop [milk; tablet]))) !! "g1" = None
  ∧ products (snd (remove_expired_products (shop [milk; tablet]))) !! "e3"
    = Some tablet.
Proof. split; reflexivity. Qed.

(** ** Saving and loading the whole store *)

(** The loop of [load_inventory] over the dictionaries of a list of
    products stores each product under its id, one after the other. *)
Lemma for_each_load_to_dict (l : list Product) (w : world) :
  for_each (to_dict <$> l) (λ item,
     product ← lift (product_of_dict item);
     modify (set_products (insert (product_id product) product))) w
  = (Ok tt, set_products (λ m, foldl (λ m p, <[product_id p := p]> m) m l) w).
Proof.
  revert w. induction l as [|p l IH]; intros w.
  - by destruct w.
  - rewrite fmap_cons. cbn [for_each].
    rewrite (bind_ok _ _ w (set_products (insert (product_id p) p) w) tt).
    + rewrite IH. by destruct w.
    + rewrite (bind_ok _ _ w w p); [done|].
      unfold lift. by rewrite product_of_dict_rebuilds.
Qed.

Lemma foldl_insert_other (l : list Product) (m : gmap string Product) (k : string) :
  k ∉ product_id <$> l →
  foldl (λ m p, <[product_id p := p]> m) m l !! k = m !! k.
Proof.
  revert m. induction l as [|p l IH]; intros m Hk; [done|].
  rewrite fmap_cons, not_elem_of_cons in Hk. destruct Hk as [Hne Hk].
  cbn. rewrite (IH _ Hk). by rewrite lookup_insert_ne.
Qed.

Lemma foldl_insert_member (l : list Product) (m : gmap string Product) (p : Product) :
  NoDup (product_id <$> l) → p ∈ l →
  foldl (λ m p, <[product_id p := p]> m) m l !! product_id p = Some p.
Proof.
  revert m. induction l as [|p0 l IH]; intros m Hnd Hp.
  - by apply elem_of_nil in Hp.
  - rewrite fmap_cons in Hnd. apply list.NoDup_cons in Hnd as [Hp0 Hnd].
    apply elem_of_cons in Hp as [->|Hp]; cbn.
    + rewrite (foldl_insert_other l _ _ Hp0). by rewrite lookup_insert_eq.
    + by apply IH.
Qed.

(** A new [Inventory] on the file [save_inventory] wrote has the store that
    was saved, whenever the keys of that store are the ids of its
    products. *)
Lemma load_saved_inventory (w : world) :
  store_wf (products w) →
  fst (Inventory_init (saved w)) = Ok tt
  ∧ products (snd (Inventory_init (saved w))) = products w.
Proof.
  intros Hwf. unfold Inventory_init.
  rewrite (bind_ok _ _ (saved w) (set_products (λ _, ∅) (saved w)) tt) by done.
  unfold load_inventory.
  rewrite (bind_ok _ _ _ (set_products (λ _, ∅) (saved w))
             (Some (to_dict <$> values (products w)))) by done.
  unfold try_except. rewrite for_each_load_to_dict. cbn. split; [done|].
  assert (product_id <$> values (products w) = (map_to_list (products w)).*1) as Hids.
  { unfold values.
    induction (store_wf_entries _ Hwf) as [|[k p] l Hkp _ IH]; [done|].
    cbn in *. by rewrite IH, Hkp. }
  apply map_eq. intros k. destruct (products w !! k) as [p|] eqn:Hp.
  - rewrite <- (Hwf k p Hp). apply foldl_insert_member.
    + rewrite Hids. apply NoDup_fst_map_to_list.
    + unfold values. apply list_elem_of_fmap. exists (k, p).
      split; [done|]. by apply elem_of_map_to_list.
  - rewrite foldl_insert_other; [apply lookup_empty|].
    rewrite Hids. intros Hk. apply list_elem_of_fmap in Hk as [[k' p] [-> Hkp]].
    apply elem_of_map_to_list in Hkp. cbn in Hp. congruence.
Qed.

(** ** Every state the program reaches *)

(** What [remove_expired_products] removes, for every state the program
    reaches: a new [Inventory] on any files, then any calls. *)
Corollary remove_expired_products_reachable (w0 : world) (cs : list command) :
  fst (remove_expired_products (run cs (snd (Inventory_init w0)))) = Ok tt
  ∧ ∀ k, products (snd (remove_expired_products (run cs (snd (Inventory_init w0))))) !! k
         = match products (run cs (snd (Inventory_init w0))) !! k with
           | Some p =>
               match class p with
               | Grocery expiry_date =>
                   if date_ltb expiry_date (today (run cs (snd (Inventory_init w0))))
                   then None else Some p
               | _ => Some p
               end
           | None => None
           end.
Proof.
  apply remove_expired_products_store, run_store_wf, Inventory_init_store_wf.
Qed.

(** ** The tests of the repository, on the model *)

Example test_add_and_get_product :
  fst ((add_product (ElectronicProduct "e1" "Smartphone" (Q2Qc 999.99) 10 2 "Apple");;
        found ← get_product "e1"; mret (name <$> found)) empty_world)
  = Ok (Some "Smartphone").
Proof. reflexivity. Qed.

Example test_duplicate_product :
  fst ((add_product (ElectronicProduct "e2" "Laptop" (Q2Qc 1299.99) 5 3 "Dell");;
        add_product (ElectronicProduct "e2" "Laptop" (Q2Qc 1299.99) 5 3 "Dell"))
         empty_world)
  = Raise (DuplicateProductError "Product with ID e2 already exists").
Proof. reflexivity. Qed.

Example test_sell_product_and_sales_file_creation :
  fst (process_sale "e3" 2 (shop [tablet])) = Ok (Q2Qc 499.99 * of_int 2)%Qc
  ∧ is_Some (sales_json (snd (process_sale "e3" 2 (shop [tablet])))).
Proof. split; [reflexivity|]. vm_compute. by eexists. Qed.

Example test_insufficient_stock :
  fst (sell_product "e4" 5
         (shop [ElectronicProduct "e4" "Monitor" (Q2Qc 199.99) 1 2 "LG"]))
  = Raise (InsufficientStockError "Insufficient stock for Monitor. Available: 1").
Proof. reflexivity. Qed.

Example test_remove_expired_products :
  GroceryProduct "g1" "Milk" (Q2Qc 2.99) 10 "2000-01-01" = Ok milk
  ∧ fst ((remove_expired_products;; get_product "g1") (shop [milk])) = Ok None.
Proof. split; reflexivity. Qed.

Example test_total_inventory_value :
  fst (total_inventory_value (shop [tshirt; earphones])) = Ok (Q2Qc 159.95).
Proof. vm_compute. f_equal. by apply Qc_is_canon. Qed.

(** A grocery product that expires today is not expired: the sweep leaves
    it. *)
Example expires_today_stays :
  products (snd (remove_expired_products (shop [milk; yogurt]))) !! "g2"
  = Some yogurt
  ∧ products (snd (remove_expired_products (shop [milk; yogurt]))) !! "g1" = None.
Proof. split; reflexivity. Qed.

(** * Further properties of the code *)

(** ** Restocking *)

Lemma restock_in_range (p : Product) (amount : Z) :
  0 ≤ amount → 0 ≤ quantity p + amount →
  restock amount p = Ok (with_quantity (quantity p + amount) p).
Proof.
  intros Ha Hq. unfold restock, set_quantity.
  destruct (Z.ltb_spec amount 0); [lia|].
  by destruct (Z.ltb_spec (quantity p + amount) 0); [lia|].
Qed.

Lemma restock_typed (amount : Z) (p : Product) (k : string) :
  restock amount p ≠ Untyped k.
Proof. unfold restock, set_quantity. by repeat case_match. Qed.

(** The three ways [restock_product] ends. *)
Lemma restock_product_cases (w : world) (pid : string) (amount : Z) :
  (products w !! pid = None
   ∧ restock_product pid amount w = (Raise (not_found pid), w))
  ∨ (∃ p e, products w !! pid = Some p ∧ restock amount p = Raise e
            ∧ restock_product pid amount w = (Raise e, w))
  ∨ (∃ p p', products w !! pid = Some p ∧ restock amount p = Ok p'
             ∧ restock_product pid amount w
               = (Ok tt, saved (set_products (insert pid p') w))).
Proof.
  unfold restock_product.
  rewrite (bind_ok _ _ w w (products w !! pid)) by apply get_product_ok.
  destruct (products w !! pid) as [p|] eqn:Hp; [|by left].
  right. unfold call_on, lift, mbind, M_bind. cbn.
  destruct (restock amount p) as [p'|e|k] eqn:Hr; cbn.
  - right. by exists p, p'.
  - left. by exists p, e.
  - by destruct (restock_typed amount p k).
Qed.

Lemma restock_product_returns (w : world) (pid : string) (p p' : Product)
    (amount : Z) :
  products w !! pid = Some p → restock amount p = Ok p' →
  restock_product pid amount w = (Ok tt, saved (set_products (insert pid p') w)).
Proof.
  intros Hp Hr.
  destruct (restock_product_cases w pid amount)
    as [[Hn _]|[(p0 & e & Hp0 & Hr0 & _)|(p0 & p0' & Hp0 & Hr0 & ->)]];
    congruence.
Qed.

(** X1.  Restocking a product of the store by an amount that is not
    negative, when the new quantity is not negative either, returns;
    afterwards the product has its quantity raised by the amount and its
    other fields as they were, every other product is as it was, and the
    file has been rewritten from the store. *)
Theorem restock_product_adds (w : world) (pid : string) (p : Product) (amount : Z) :
  products w !! pid = Some p →
  0 ≤ amount →
  0 ≤ quantity p + amount →
  restock_product pid amount w
  = (Ok tt, saved (set_products (insert pid (with_quantity (quantity p + amount) p)) w))
  ∧ products (snd (restock_product pid amount w)) !! pid
    = Some (mkProduct (product_id p) (name p) (price p) (quantity p + amount)
                      (class p))
  ∧ ∀ k, k ≠ pid →
      products (snd (restock_product pid amount w)) !! k = products w !! k.
Proof.
  intros Hp Ha Hq.
  rewrite (restock_product_returns w pid p _ amount Hp
             (restock_in_range p amount Ha Hq)).
  split; [done|]. cbn. split.
  - by rewrite lookup_insert_eq.
  - intros k Hk. by rewrite lookup_insert_ne.
Qed.

(** Three tablets are added to the five of the shop. *)
Lemma restock_product_adds_witness :
  restock_product "e3" 3 (shop [tablet])
  = (Ok tt, saved (set_products
                     (insert "e3" (with_quantity (quantity tablet + 3) tablet))
                     (shop [tablet])))
  ∧ products (snd (restock_product "e3" 3 (shop [tablet]))) !! "e3"
    = Some (mkProduct (product_id tablet) (name tablet) (price tablet)
                      (quantity tablet + 3) (class tablet))
  ∧ ∀ k, k ≠ "e3" →
      products (snd (restock_product "e3" 3 (shop [tablet]))) !! k
      = products (shop [tablet]) !! k.
Proof.
  apply (restock_product_adds (shop [tablet]) "e3" tablet 3).
  - reflexivity.
  - lia.
  - cbn. lia.
Defined.





(** ** Removing *)

(** X4.  [remove_product] of an id of the store returns; afterwards the id
    is no key of the store, every other product is as it was, and the file
    has been rewritten from the store.  For an id that is not in the store
    it raises the [ValueError] of a product not found and changes
    nothing. *)
Theorem remove_product_removes (w : world) (pid : string) :
  (is_Some (products w !! pid) →
   remove_product pid w = (Ok tt, saved (set_products (delete pid) w))
   ∧ products (snd (remove_product pid w)) !! pid = None
   ∧ ∀ k, k ≠ pid → products (snd (remove_product pid w)) !! k = products w !! k)
  ∧ (products w !! pid = None →
     remove_product pid w = (Raise (not_found pid), w)).
Proof.
  split.
  - intros [p Hp]. rewrite (remove_product_present w pid p Hp).
    split; [done|]. cbn. split.
    + apply lookup_delete_eq.
    + intros k Hk. by apply lookup_delete_ne.
  - apply remove_product_absent.
Qed.

(** The tablet is removed from the shop, and an unknown id is not. *)
Lemma remove_product_removes_witness :
  (remove_product "e3" (shop [tablet; milk])
   = (Ok tt, saved (set_products (delete "e3") (shop [tablet; milk])))
   ∧ products (snd (remove_product "e3" (shop [tablet; milk]))) !! "e3" = None
   ∧ ∀ k, k ≠ "e3" →
       products (snd (remove_product "e3" (shop [tablet; milk]))) !! k
       = products (shop [tablet; milk]) !! k)
  ∧ remove_product "zz" (shop [tablet; milk])
    = (Raise (not_found "zz"), shop [tablet; milk]).
Proof.
  split.
  - destruct (remove_product_removes (shop [tablet; milk]) "e3") as [H _].
    apply H. by exists tablet.
  - destruct (remove_product_removes (shop [tablet; milk]) "zz") as [_ H].
    apply H. reflexivity.
Defined.

(** X5.  Adding a product whose id is not in the store and then removing
    that id gives the store back as it was; both calls return. *)
Theorem add_then_remove_restores (w : world) (p : Product) :
  products w !! product_id p = None →
  fst ((add_product p;; remove_product (product_id p)) w) = Ok tt
  ∧ products (snd ((add_product p;; remove_product (product_id p)) w))
    = products w.
Proof.
  intros Hp. rewrite (bind_ok _ _ _ _ _ (add_product_fresh w p Hp)).
  rewrite (remove_product_present _ (product_id p) p)
    by (cbn; by rewrite lookup_insert_eq).
  cbn. split; [done|]. by apply delete_insert_id.
Qed.

(** The tablet is added to the shop that holds milk, and removed. *)
Lemma add_then_remove_restores_witness :
  fst ((add_product tablet;; remove_product (product_id tablet)) (shop [milk]))
  = Ok tt
  ∧ products (snd ((add_product tablet;; remove_product (product_id tablet))
                     (shop [milk])))
    = products (shop [milk]).
Proof.
  apply (add_then_remove_restores (shop [milk]) tablet). reflexivity.
Defined.

(** ** A sale that fails *)


(** ** The value of the inventory, call by call *)












(** ** Searching *)

Lemma filter_all {A : Type} (P : A → Prop) `{!∀ x, Decision (P x)} (l : list A) :
  Forall P l → filter P l = l.
Proof.
  induction 1 as [|x l Hx _ IH]; [done|]. by rewrite filter_cons_True, IH.
Qed.

Lemma filter_none {A : Type} (P : A → Prop) `{!∀ x, Decision (P x)} (l : list A) :
  Forall (λ x, ¬ P x) l → filter P l = [].
Proof.
  induction 1 as [|x l Hx _ IH]; [done|]. by rewrite filter_cons_False.
Qed.

(** Every product is of exactly one of the three classes, so the three
    searches by type share out any list of products. *)
Lemma filter_by_class (l : list Product) :
  l ≡ₚ filter (λ p, class_name p = "ElectronicProduct") l
       ++ filter (λ p, class_name p = "ClothingProduct") l
       ++ filter (λ p, class_name p = "GroceryProduct") l.
Proof.
  induction l as [|p l IH]; [done|].
  destruct p as [pid nm pr qty [wy b|sz mat|d]].
  - rewrite filter_cons_True by done. rewrite !(filter_cons_False _ _ l) by done.
    cbn. by rewrite <- IH.
  - rewrite (filter_cons_False _ _ l) by done.
    rewrite (filter_cons_True _ _ l) by done.
    rewrite (filter_cons_False _ _ l) by done.
    rewrite <- app_comm_cons, <- Permutation_middle. by rewrite <- IH.
  - rewrite !(filter_cons_False _ _ l) by done.
    rewrite (filter_cons_True _ _ l) by done.
    rewrite app_assoc, <- Permutation_middle, <- app_assoc. by rewrite <- IH.
Qed.

(** X10.  [search_by_type] compares its argument with the name of the class:
    for any other string, such as ["Electronic"], which the menu of
    [cli_menu] proposes, it finds nothing.  The searches for the three class
    names share out the products of the store: each product is found by
    exactly one of them.  The search changes nothing. *)
Theorem search_by_type_shares_out (w : world) :
  (∀ t, t ≠ "ElectronicProduct" → t ≠ "ClothingProduct" → t ≠ "GroceryProduct" →
     search_by_type t w = (Ok [], w))
  ∧ ∃ es cs gs,
      search_by_type "ElectronicProduct" w = (Ok es, w)
      ∧ search_by_type "ClothingProduct" w = (Ok cs, w)
      ∧ search_by_type "GroceryProduct" w = (Ok gs, w)
      ∧ values (products w) ≡ₚ es ++ cs ++ gs.
Proof.
  split.
  - intros t He Hc Hg. unfold search_by_type, gets. rewrite filter_none; [done|].
    apply list.Forall_forall. intros p _ Hp.
    unfold class_name in Hp. destruct (class p); congruence.
  - eexists _, _, _. repeat split. apply filter_by_class.
Qed.

(** The search for ["Electronic"] in the shop that holds a tablet. *)
Lemma search_by_type_shares_out_witness :
  search_by_type "Electronic" (shop [tablet; tshirt; milk])
  = (Ok [], shop [tablet; tshirt; milk])
  ∧ fst (search_by_type "ElectronicProduct" (shop [tablet; tshirt; milk]))
    = Ok [tablet].
Proof.
  split.
  - destruct (search_by_type_shares_out (shop [tablet; tshirt; milk])) as [H _].
    by apply H.
  - reflexivity.
Defined.

Lemma elem_of_values (m : gmap string Product) (k : string) (p : Product) :
  m !! k = Some p → p ∈ values m.
Proof.
  intros Hp. unfold values. apply list_elem_of_fmap. exists (k, p).
  split; [done|]. by apply elem_of_map_to_list.
Qed.

Lemma lower_char_idemp (c : ascii) : lower_char (lower_char c) = lower_char c.
Proof. by destruct c as [[] [] [] [] [] [] [] []]. Qed.

Lemma lower_idemp (s : string) : lower (lower s) = lower s.
Proof. induction s as [|c s IH]; [done|]. cbn. by rewrite lower_char_idemp, IH. Qed.

Lemma prefix_refl (s : string) : String.prefix s s = true.
Proof.
  induction s as [|c s IH]; [done|]. cbn. by destruct (ascii_dec c c).
Qed.

Lemma contains_refl (s : string) : contains s s = true.
Proof.
  destruct s as [|c s]; [done|].
  change (contains (String c s) (String c s))
    with (if String.prefix (String c s) (String c s) then true
          else contains (String c s) s).
  by rewrite prefix_refl.
Qed.

Lemma contains_empty (s : string) : contains "" s = true.
Proof. by destruct s. Qed.

(** X11.  [search_by_name] of the empty string finds every product of the
    store.  The letter case of the argument does not matter: the argument
    and its lower case find the same products.  Every product of the store
    is found by its own name, and by any string that is its name up to
    letter case.  The search changes nothing. *)
Theorem search_by_name_ignores_case (w : world) :
  search_by_name "" w = (Ok (values (products w)), w)
  ∧ (∀ n, search_by_name (lower n) w = search_by_name n w)
  ∧ (∀ n p, p ∈ values (products w) → lower n = lower (name p) →
       ∃ found, search_by_name n w = (Ok found, w) ∧ p ∈ found).
Proof.
  unfold search_by_name, gets. split; [|split].
  - rewrite filter_all; [done|].
    apply list.Forall_forall. intros p _. cbn. by rewrite contains_empty.
  - intros n. by rewrite lower_idemp.
  - intros n p Hp Hn. eexists. split; [done|].
    apply list_elem_of_filter. split; [|done].
    rewrite Hn, contains_refl. done.
Qed.

(** The tablet is found under ["TABLET"]. *)
Lemma search_by_name_ignores_case_witness :
  ∃ found, search_by_name "TABLET" (shop [tablet; milk])
           = (Ok found, shop [tablet; milk])
           ∧ tablet ∈ found.
Proof.
  destruct (search_by_name_ignores_case (shop [tablet; milk])) as (_ & _ & H).
  apply (H "TABLET" tablet).
  - apply (elem_of_values _ "e3"). reflexivity.
  - reflexivity.
Defined.

(** ** The sweep of expired products, again *)

(** The loop of [remove_expired_products] only removes: whatever ids it is
    given, a product of the store after the loop was a product of the store
    before it, under the same key. *)
Lemma for_each_remove_only_removes (l : list string) (w : world) (k : string)
    (p : Product) :
  products (snd (for_each l remove_product w)) !! k = Some p →
  products w !! k = Some p.
Proof.
  revert w. induction l as [|pid l IH]; intros w; [done|].
  cbn [for_each]. destruct (products w !! pid) as [p0|] eqn:Hp0.
  - rewrite (bind_ok _ _ _ _ _ (remove_product_present w pid p0 Hp0)).
    intros Hk. apply IH in Hk. cbn in Hk.
    destruct (decide (pid = k)) as [->|Hne].
    + by rewrite lookup_delete_eq in Hk.
    + by rewrite lookup_delete_ne in Hk.
  - by rewrite (bind_raise _ _ _ _ _ (remove_product_absent w pid Hp0)).
Qed.

Lemma remove_expired_products_nothing (w : world) :
  (∀ k p, products w !! k = Some p → expired_grocery (today w) p = false) →
  remove_expired_products w = (Ok tt, w).
Proof.
  intros Hnone. unfold remove_expired_products.
  rewrite (bind_ok _ _ w w (expired_ids w)) by done.
  unfold expired_ids. rewrite filter_none; [done|].
  apply list.Forall_forall. intros p Hp. unfold values in Hp.
  apply list_elem_of_fmap in Hp as [[k p'] [-> Hkp]].
  apply elem_of_map_to_list in Hkp. cbn [snd]. rewrite (Hnone k p' Hkp).
  by intros [].
Qed.

(** X12.  In a store that holds no expired grocery product,
    [remove_expired_products] changes nothing at all: it does not even
    rewrite the file.  In a store whose keys are the ids of its products, a
    second sweep right after a first one is such a call: it returns and
    leaves the state the first sweep left. *)
Theorem remove_expired_products_twice (w : world) :
  ((∀ k p, products w !! k = Some p → expired_grocery (today w) p = false) →
   remove_expired_products w = (Ok tt, w))
  ∧ (store_wf (products w) →
     remove_expired_products (snd (remove_expired_products w))
     = (Ok tt, snd (remove_expired_products w))).
Proof.
  split; [apply remove_expired_products_nothing|].
  intros Hwf. apply remove_expired_products_nothing. intros k p.
  destruct (remove_expired_products_store w Hwf) as [_ Hlook].
  destruct (inventory_only_remove_expired w) as (_ & _ & -> & _).
  rewrite Hlook. unfold expired_grocery, is_expired.
  destruct (products w !! k) as [p0|]; [|done].
  destruct (class p0) as [| |d] eqn:Hc.
  - intros [= <-]. by rewrite Hc.
  - intros [= <-]. by rewrite Hc.
  - destruct (date_ltb d (today w)) eqn:Hd; [done|]. intros [= <-]. by rewrite Hc.
Qed.

(** The shop that holds a tablet and fresh yogurt; two sweeps of the shop
    that holds expired milk. *)
Lemma remove_expired_products_twice_witness :
  remove_expired_products (shop [tablet; yogurt]) = (Ok tt, shop [tablet; yogurt])
  ∧ remove_expired_products (snd (remove_expired_products (shop [milk; tablet])))
    = (Ok tt, snd (remove_expired_products (shop [milk; tablet]))).
Proof.
  split.
  - destruct (remove_expired_products_twice (shop [tablet; yogurt])) as [H _].
    apply H.
    change (products (shop [tablet; yogurt]))
      with (<["g2" := yogurt]> (<["e3" := tablet]> ∅) : gmap string Product).
    intros k p Hp. destruct (decide (k = "g2")) as [->|Hg].
    + rewrite lookup_insert_eq in Hp. by injection Hp as <-.
    + rewrite lookup_insert_ne in Hp by done.
      destruct (decide (k = "e3")) as [->|He].
      * rewrite lookup_insert_eq in Hp. by injection Hp as <-.
      * by rewrite lookup_insert_ne, lookup_empty in Hp.
  - destruct (remove_expired_products_twice (shop [milk; tablet])) as [_ H].
    apply H. apply (bool_decide_unpack _). vm_compute. exact I.
Defined.

(** ** What calls keep *)

Lemma sell_leaves_stock (q : Z) (p p' : Product) :
  sell q p = Ok p' → 0 ≤ quantity p' ∧ same_but_quantity p p'.
Proof.
  unfold sell, set_quantity. repeat case_match; try done.
  intros [= <-]. cbn. split; [lia|done].
Qed.

Lemma restock_leaves_stock (amount : Z) (p p' : Product) :
  restock amount p = Ok p' → 0 ≤ quantity p' ∧ same_but_quantity p p'.
Proof.
  unfold restock, set_quantity. repeat case_match; try done.
  intros [= <-]. cbn. split; [lia|done].
Qed.

Lemma stock_ok_insert (m : gmap string Product) (k : string) (p : Product) :
  0 ≤ quantity p → stock_ok m → stock_ok (<[k := p]> m).
Proof.
  intros Hq Hok k' p' Hp'. destruct (decide (k = k')) as [<-|Hne].
  - rewrite lookup_insert_eq in Hp'. by injection Hp' as <-.
  - rewrite lookup_insert_ne in Hp' by done. by apply (Hok k').
Qed.

Lemma exec_stock_ok (c : command) (w : world) :
  adds_negative c = false → stock_ok (products w) → stock_ok (products (exec c w)).
Proof.
  intros Hc Hok. destruct c as [p|pid|pid q|pid q| |pid q|d t]; cbn; [| | | | | |done].
  - destruct (products w !! product_id p) as [p0|] eqn:Hp.
    + by rewrite (add_product_present w p p0 Hp).
    + rewrite (add_product_fresh w p Hp). cbn. apply stock_ok_insert; [|done].
      cbn in Hc. by destruct (Z.ltb_spec (quantity p) 0).
  - destruct (products w !! pid) as [p0|] eqn:Hp.
    + rewrite (remove_product_present w pid p0 Hp). cbn. intros k p Hk.
      destruct (decide (pid = k)) as [->|Hne].
      * by rewrite lookup_delete_eq in Hk.
      * rewrite lookup_delete_ne in Hk by done. by apply (Hok k).
    + by rewrite (remove_product_absent w pid Hp).
  - destruct (sell_product_cases w pid q)
      as [[_ E]|[(p & e & _ & _ & E)|(p & p' & Hp & Hs & E)]]; rewrite E; cbn;
      [done..|].
    apply stock_ok_insert; [|done]. by destruct (sell_leaves_stock q p p' Hs).
  - destruct (restock_product_cases w pid q)
      as [[_ E]|[(p & e & _ & _ & E)|(p & p' & Hp & Hs & E)]]; rewrite E; cbn;
      [done..|].
    apply stock_ok_insert; [|done]. by destruct (restock_leaves_stock q p p' Hs).
  - intros k p Hk. apply (Hok k). unfold remove_expired_products in Hk.
    rewrite (bind_ok _ _ w w (expired_ids w)) in Hk by done.
    by apply for_each_remove_only_removes in Hk.
  - destruct (process_sale_cases w pid q) as [[e E]|(p & p' & Hp & Hs & E)];
      rewrite E; cbn; [done|].
    apply stock_ok_insert; [|done]. by destruct (sell_leaves_stock q p p' Hs).
Qed.

(** X13.  The stock is never driven below zero: when no product of the
    store has a negative quantity, none has after any run of calls that
    brings no product of negative quantity in, whatever the calls and
    whether they return or raise. *)
Theorem run_keeps_stock_nonnegative (cs : list command) (w : world) :
  stock_ok (products w) →
  Forall (λ c, adds_negative c = false) cs →
  stock_ok (products (run cs w)).
Proof.
  intros Hok Hcs. revert w Hok.
  induction Hcs as [|c cs Hc _ IH]; intros w Hok; [done|].
  cbn. by apply IH, exec_stock_ok.
Qed.

(** A run of the shop that holds five tablets: sales, restocks, a sweep. *)
Lemma run_keeps_stock_nonnegative_witness :
  stock_ok (products (run [SellProduct "e3" 4; ProcessSale "e3" 3;
                           RestockProduct "e3" (-2); RemoveExpired;
                           ProcessSale "e3" 1; AddProduct tshirt]
                          (shop [tablet]))).
Proof.
  apply (run_keeps_stock_nonnegative _ (shop [tablet])).
  - change (products (shop [tablet]))
      with (<["e3" := tablet]> ∅ : gmap string Product).
    apply stock_ok_insert; [cbn; lia|]. intros k p Hp.
    by rewrite lookup_empty in Hp.
  - repeat constructor.
Defined.

(** X14.  A sale, a restock, a sale through the ledger and the passing of
    time add no product to the store and remove none, and they change no
    product but in its quantity: id, name, price and class stay, whether the
    call returns or raises. *)
Theorem stock_moves_keep_products (c : command) (w : world) (k : string) :
  moves_stock c = true →
  match products w !! k, products (exec c w) !! k with
  | Some p, Some p' => same_but_quantity p p'
  | None, None => True
  | _, _ => False
  end.
Proof.
  assert (∀ p : Product, same_but_quantity p p) as Hrefl by done.
  assert (∀ pid p p', products w !! pid = Some p → same_but_quantity p p' →
            match products w !! k, (<[pid := p']> (products w)) !! k with
            | Some p, Some p' => same_but_quantity p p'
            | None, None => True
            | _, _ => False
            end) as Hins.
  { intros pid p p' Hp Hsame. destruct (decide (pid = k)) as [->|Hne].
    - by rewrite lookup_insert_eq, Hp.
    - rewrite lookup_insert_ne by done. by destruct (products w !! k). }
  assert (match products w !! k, products w !! k with
          | Some p, Some p' => same_but_quantity p p'
          | None, None => True
          | _, _ => False
          end) as Hsame by (by destruct (products w !! k)).
  intros Hc. destruct c as [p|pid|pid q|pid q| |pid q|d t]; try done; cbn.
  - destruct (sell_product_cases w pid q)
      as [[_ E]|[(p & e & _ & _ & E)|(p & p' & Hp & Hs & E)]]; rewrite E; cbn;
      [done..|].
    apply (Hins pid p p' Hp). by destruct (sell_leaves_stock q p p' Hs).
  - destruct (restock_product_cases w pid q)
      as [[_ E]|[(p & e & _ & _ & E)|(p & p' & Hp & Hs & E)]]; rewrite E; cbn;
      [done..|].
    apply (Hins pid p p' Hp). by destruct (restock_leaves_stock q p p' Hs).
  - destruct (process_sale_cases w pid q) as [[e E]|(p & p' & Hp & Hs & E)];
      rewrite E; cbn; [done|].
    apply (Hins pid p p' Hp). by destruct (sell_leaves_stock q p p' Hs).
Qed.

(** The tablet after a sale through the ledger of two of the five. *)
Lemma stock_moves_keep_products_witness :
  match products (shop [tablet]) !! "e3",
        products (exec (ProcessSale "e3" 2) (shop [tablet])) !! "e3" with
  | Some p, Some p' => same_but_quantity p p'
  | None, None => True
  | _, _ => False
  end.
Proof.
  apply (stock_moves_keep_products (ProcessSale "e3" 2) (shop [tablet]) "e3").
  reflexivity.
Defined.

(** X15.  The keys of the store are the ids of its products in every state
    the program reaches: after a new [Inventory] has been made from any
    file, whether loading returned or raised, and after any run of calls on
    it. *)
Theorem run_keeps_keys_ids (w0 : world) (cs : list command) :
  store_wf (products (snd (Inventory_init w0)))
  ∧ store_wf (products (run cs (snd (Inventory_init w0)))).
Proof.
  split; [|apply run_store_wf]; apply Inventory_init_store_wf.
Qed.

(** ** The ledger, call by call *)

(** X16.  The ledger only grows at its end: after any run of calls, the
    ledger before the run is the beginning of the ledger after it.  No call
    changes or removes a record that has been written. *)
Theorem ledger_append_only (cs : list command) (w : world) :
  sales_log w `prefix_of` sales_log (run cs w).
Proof.
  revert w. induction cs as [|c cs IH]; intros w; [done|].
  cbn. transitivity (sales_log (exec c w)); [|apply IH].
  destruct (exec_ledger c w) as [(_ & r & -> & _)|(_ & -> & _)]; [|done].
  by apply prefix_app_r.
Qed.






(** ** Loading the inventory *)

(** The loop of [load_inventory] changes the store as [load_entries] says,
    and nothing else. *)
Lemma for_each_load_entries (data : list pydict) (w : world) :
  for_each data (λ item,
     product ← lift (product_of_dict item);
     modify (set_products (insert (product_id product) product))) w
  = (fst (load_entries data (products w)),
     set_products (λ _, snd (load_entries data (products w))) w).
Proof.
  revert w. induction data as [|item data IH]; intros w.
  - by destruct w.
  - cbn [for_each load_entries]. unfold mbind at 1, M_bind at 1.
    unfold mbind at 1, M_bind at 1, lift.
    destruct (product_of_dict item) as [p|e|k]; cbn; [|by destruct w..].
    rewrite IH. by destruct w.
Qed.

(** [Inventory.__init__], as a function of the file. *)
Lemma Inventory_init_eq (w : world) :
  Inventory_init w
  = match inventory_json w with
    | None => (Ok tt, set_products (λ _, ∅) w)
    | Some data =>
        (match fst (load_entries data ∅) with
         | Raise e =>
             Raise (InvalidProductDataError
                      ("Failed to load inventory: " +:+ exn_str e))
         | other => other
         end,
         set_products (λ _, snd (load_entries data ∅)) w)
    end.
Proof.
  unfold Inventory_init.
  rewrite (bind_ok _ _ w (set_products (λ _, ∅) w) tt) by done.
  unfold load_inventory.
  rewrite (bind_ok _ _ _ (set_products (λ _, ∅) w) (inventory_json w)) by done.
  destruct (inventory_json w) as [data|]; [|done].
  unfold try_except. rewrite for_each_load_entries. cbn.
  destruct (load_entries data ∅) as [[[]|e|k] m]; by destruct w.
Qed.




(** X20.  A new [Inventory] raises nothing but [InvalidProductDataError],
    with a message that starts with ["Failed to load inventory: "]: the
    [KeyError] of a missing field, the [TypeError] and the error of a date
    that does not parse are all wrapped.  Without a file it returns with an
    empty store.  It never writes the file, and it leaves the ledger, its
    file and the clock as they are. *)
Theorem Inventory_init_raises_invalid_data (w : world) :
  (∀ e, fst (Inventory_init w) = Raise e →
     ∃ msg, e = InvalidProductDataError ("Failed to load inventory: " +:+ msg))
  ∧ (inventory_json w = None → Inventory_init w = (Ok tt, set_products (λ _, ∅) w))
  ∧ inventory_json (snd (Inventory_init w)) = inventory_json w
  ∧ sales_log (snd (Inventory_init w)) = sales_log w
  ∧ sales_json (snd (Inventory_init w)) = sales_json w.
Proof.
  rewrite Inventory_init_eq. destruct (inventory_json w) as [data|] eqn:Hfile.
  - cbn. split; [|done].
    destruct (load_entries data ∅) as [[[]|e0|k] m]; cbn; intros e; try done.
    intros [= <-]. by eexists.
  - by cbn.
Qed.

(** The entries the loop body refuses: one without ["type"] or without a
    field of the base class, and one whose type is none of the three class
    names. *)
Lemma product_of_dict_missing (p : Product) (key : string) :
  key ∈ ["type"; "product_id"; "name"; "price"; "quantity"] →
  product_of_dict (delete key (to_dict p)) = Raise (KeyError key).
Proof.
  intros Hkey.
  repeat (apply elem_of_cons in Hkey as [->|Hkey]);
    [| | | | |by apply elem_of_nil in Hkey];
    destruct p as [pid nm pr qty [wy b|sz mat|d]];
    unfold product_of_dict, str_field, int_field, float_field, getitem,
      to_dict, base_dict; cbn;
    by simplify_map_eq.
Qed.

(** X21.  The loop body of [load_inventory] refuses an entry that lacks
    ["type"] or one of the four fields of the base class, with the
    [KeyError] of the missing key, and an entry whose ["type"] is a string
    other than the three class names, with [InvalidProductDataError] and the
    message ["Unknown product type: "] followed by that string. *)
Theorem product_of_dict_refuses (p : Product) :
  (∀ key, key ∈ ["type"; "product_id"; "name"; "price"; "quantity"] →
     product_of_dict (delete key (to_dict p)) = Raise (KeyError key))
  ∧ (∀ t, t ≠ "ElectronicProduct" → t ≠ "ClothingProduct" → t ≠ "GroceryProduct" →
       product_of_dict (<["type" := VStr t]> (to_dict p))
       = Raise (InvalidProductDataError ("Unknown product type: " +:+ t))).
Proof.
  split; [apply product_of_dict_missing|].
  intros t He Hc Hg. unfold product_of_dict, getitem.
  rewrite lookup_insert_eq. by rewrite !decide_False.
Qed.

(** The dictionary of the tablet without its name, and with the type
    ["Electronic"]. *)
Lemma product_of_dict_refuses_witness :
  product_of_dict (delete "name" (to_dict tablet)) = Raise (KeyError "name")
  ∧ product_of_dict (<["type" := VStr "Electronic"]> (to_dict tablet))
    = Raise (InvalidProductDataError ("Unknown product type: " +:+ "Electronic")).
Proof.
  destruct (product_of_dict_refuses tablet) as [H1 H2]. split.
  - apply H1. apply list_elem_of_further, list_elem_of_further, list_elem_of_here.
  - by apply H2.
Defined.

(** *** The file keeps in step with the store *)








(** X23.  [load_inventory] on a store that holds products, as the entry
    "Load Inventory" of [cli_menu] calls it, merges the file into the store.
    When the file holds the dictionaries of a list of products, the call
    returns; a product of the store whose id is on no entry of the file
    stays as it is; and of the entries with one id the last one is the
    product of the store afterwards: loading does not refuse a second entry
    with an id, as [add_product] does. *)
Theorem load_inventory_merges (w : world) (l : list Product) :
  inventory_json w = Some (to_dict <$> l) →
  fst (load_inventory w) = Ok tt
  ∧ (∀ k, k ∉ product_id <$> l →
       products (snd (load_inventory w)) !! k = products w !! k)
  ∧ (∀ l1 p l2, l = l1 ++ p :: l2 → product_id p ∉ product_id <$> l2 →
       products (snd (load_inventory w)) !! product_id p = Some p).
Proof.
  intros Hfile. unfold load_inventory.
  rewrite (bind_ok _ _ w w (Some (to_dict <$> l))) by (by rewrite <- Hfile).
  unfold try_except. rewrite for_each_load_to_dict. cbn.
  split; [done|]. split.
  - intros k Hk. by apply foldl_insert_other.
  - intros l1 p l2 -> Hp. rewrite foldl_app. cbn.
    rewrite foldl_insert_other by done. apply lookup_insert_eq.
Qed.

(** The shop holds a tablet and milk; the file holds a tablet of another
    stock twice, the second time with 9 units. *)
Lemma load_inventory_merges_witness :
  fst (load_inventory
         (set_inventory_json
            (Some (to_dict <$> [with_quantity 7 tablet; with_quantity 9 tablet]))
            (shop [tablet; milk]))) = Ok tt
  ∧ products (snd (load_inventory
         (set_inventory_json
            (Some (to_dict <$> [with_quantity 7 tablet; with_quantity 9 tablet]))
            (shop [tablet; milk])))) !! "g1" = Some milk
  ∧ products (snd (load_inventory
         (set_inventory_json
            (Some (to_dict <$> [with_quantity 7 tablet; with_quantity 9 tablet]))
            (shop [tablet; milk])))) !! "e3" = Some (with_quantity 9 tablet).
Proof.
  destruct (load_inventory_merges
              (set_inventory_json
                 (Some (to_dict <$> [with_quantity 7 tablet; with_quantity 9 tablet]))
                 (shop [tablet; milk]))
              [with_quantity 7 tablet; with_quantity 9 tablet] eq_refl)
    as (H1 & H2 & H3).
  split; [exact H1|]. split.
  - rewrite (H2 "g1"); [reflexivity|].
    cbn. intros H. repeat (apply elem_of_cons in H as [H|H]; [done|]).
    by apply elem_of_nil in H.
  - apply (H3 [with_quantity 7 tablet] (with_quantity 9 tablet) []); [done|].
    apply not_elem_of_nil.
Defined.

(** ** Expiry dates *)

(** [fromisoformat] on four digits, a hyphen, two digits, a hyphen and two
    digits: the checks of the constructor of [date] decide. *)
Lemma fromisoformat_digits (y m d : Z) :
  0 ≤ y < 10000 → 0 ≤ m < 100 → 0 ≤ d < 100 →
  fromisoformat (zero_padded 4 y +:+ "-" +:+ zero_padded 2 m +:+ "-"
                 +:+ zero_padded 2 d)
  = match decide (Is_true (valid_ymd y m d)) with
    | left ok => Some (Date y m d ok)
    | right _ => None
    end.
Proof.
  intros Hy Hm Hd.
  change (zero_padded 4 y +:+ "-" +:+ zero_padded 2 m +:+ "-" +:+ zero_padded 2 d)
    with (String (digit_char (y / 10 / 10 / 10))
            (String (digit_char (y / 10 / 10))
               (String (digit_char (y / 10))
                  (String (digit_char y)
                     (String "-"
                        (String (digit_char (m / 10))
                           (String (digit_char m)
                              (String "-"
                                 (String (digit_char (d / 10))
                                    (String (digit_char d) EmptyString)))))))))).
  unfold fromisoformat.
  cbn [String.length String.substring digits_val].
  rewrite !digit_val_char.
  rewrite (four_digits y Hy), (two_digits m Hm), (two_digits d Hd).
  by rewrite !decide_True by done.
Qed.

(** X24.  A string made of a year of four digits, a month of two and a day
    of two, with hyphens between them, is accepted by [GroceryProduct]
    exactly when it names a day of the calendar: a year from 1 on, a month
    from 1 to 12 and a day of that month, the 29th of February in leap years
    only.  Then the product expires on that day; otherwise the constructor
    raises [InvalidProductDataError]. *)
Theorem GroceryProduct_accepts_calendar_days (pid nm : string) (pr : Qc) (qty : Z)
    (y m d : Z) :
  0 ≤ y < 10000 → 0 ≤ m < 100 → 0 ≤ d < 100 →
  match GroceryProduct pid nm pr qty
          (zero_padded 4 y +:+ "-" +:+ zero_padded 2 m +:+ "-" +:+ zero_padded 2 d)
  with
  | Ok p =>
      valid_ymd y m d = true
      ∧ product_id p = pid ∧ name p = nm ∧ price p = pr ∧ quantity p = qty
      ∧ ∃ expiry, class p = Grocery expiry
                  ∧ year expiry = y ∧ month expiry = m ∧ day expiry = d
  | Raise e =>
      valid_ymd y m d = false
      ∧ e = InvalidProductDataError "Invalid expiry date format. Use YYYY-MM-DD"
  | Untyped _ => False
  end.
Proof.
  intros Hy Hm Hd. unfold GroceryProduct.
  rewrite (fromisoformat_digits y m d Hy Hm Hd).
  destruct (decide (Is_true (valid_ymd y m d))) as [ok|no]; cbn.
  - split; [by apply Is_true_true|]. repeat split. by eexists.
  - split; [|done]. by destruct (valid_ymd y m d).
Qed.

(** The 29th of February of 2024, a leap year, is accepted; that of 2023
    is refused. *)
Lemma GroceryProduct_accepts_calendar_days_witness :
  (∃ p, GroceryProduct "g" "n" 1 1 "2024-02-29" = Ok p
        ∧ class p = Grocery (Date 2024 2 29 I))
  ∧ GroceryProduct "g" "n" 1 1 "2023-02-29"
    = Raise (InvalidProductDataError "Invalid expiry date format. Use YYYY-MM-DD").
Proof.
  split.
  - pose proof (GroceryProduct_accepts_calendar_days "g" "n" 1 1 2024 2 29
                  ltac:(lia) ltac:(lia) ltac:(lia)) as H.
    change (zero_padded 4 2024 +:+ "-" +:+ zero_padded 2 2 +:+ "-"
            +:+ zero_padded 2 29) with "2024-02-29" in H.
    destruct (GroceryProduct "g" "n" 1 1 "2024-02-29") as [p|e|k] eqn:E;
      [|by destruct H as [? _]|done].
    exists p. split; [done|]. by injection E as <-.
  - pose proof (GroceryProduct_accepts_calendar_days "g" "n" 1 1 2023 2 29
                  ltac:(lia) ltac:(lia) ltac:(lia)) as H.
    change (zero_padded 4 2023 +:+ "-" +:+ zero_padded 2 2 +:+ "-"
            +:+ zero_padded 2 29) with "2023-02-29" in H.
    destruct (GroceryProduct "g" "n" 1 1 "2023-02-29") as [p|e|k];
      [by destruct H as [? _]| |done].
    by destruct H as [_ ->].
Defined.

(** X25.  [GroceryProduct] accepts what [isoformat] writes, a text of ten
    characters, and the product expires on the date that was written: the
    constructor reads a date back from its text, as the page "Add Product"
    of [app.py] relies on. *)
Theorem GroceryProduct_of_isoformat (pid nm : string) (pr : Qc) (qty : Z) (d : date) :
  GroceryProduct pid nm pr qty (isoformat d)
  = Ok (mkProduct pid nm pr qty (Grocery d))
  ∧ String.length (isoformat d) = 10%nat.
Proof. unfold GroceryProduct. by rewrite fromisoformat_isoformat. Qed.




(** ** The page "Manage Inventory" of [app.py] *)

(** X27.  The button "Update Stock", on a product of the store and a new
    quantity that is not negative: when the new quantity is at least the
    present one, the product gets exactly the new quantity and the file is
    rewritten; when it is lower, the call raises [ValueError] with the
    message of [restock] and nothing changes.  The button cannot lower a
    stock. *)
Theorem update_stock_only_raises_stock (w : world) (pid : string) (p : Product)
    (new_quantity : Z) :
  products w !! pid = Some p →
  0 ≤ new_quantity →
  (quantity p ≤ new_quantity →
   update_stock pid new_quantity w
   = (Ok tt, saved (set_products (insert pid (with_quantity new_quantity p)) w)))
  ∧ (new_quantity < quantity p →
     update_stock pid new_quantity w
     = (Raise (ValueError "Restock amount cannot be negative"), w)).
Proof.
  intros Hp Hnew. unfold update_stock.
  rewrite (bind_ok _ _ w w (products w !! pid)) by apply get_product_ok.
  rewrite Hp. split; intros Hq.
  - rewrite (restock_product_returns w pid p (with_quantity new_quantity p));
      [done..|].
    rewrite restock_in_range by lia. do 2 f_equal. lia.
  - destruct (restock_product_cases w pid (new_quantity - quantity p))
      as [[Hn _]|[(p0 & e & Hp0 & Hr0 & ->)|(p0 & p0' & Hp0 & Hr0 & _)]];
      [congruence| |].
    + assert (p0 = p) as -> by congruence.
      unfold restock in Hr0.
      destruct (Z.ltb_spec (new_quantity - quantity p) 0); [|lia].
      by injection Hr0 as <-.
    + assert (p0 = p) as -> by congruence.
      unfold restock in Hr0.
      by destruct (Z.ltb_spec (new_quantity - quantity p) 0); [|lia].
Qed.

(** Five tablets in the shop: the new quantity 12 is set, the new quantity 3
    is refused. *)
Lemma update_stock_only_raises_stock_witness :
  products (snd (update_stock "e3" 12 (shop [tablet]))) !! "e3"
  = Some (with_quantity 12 tablet)
  ∧ update_stock "e3" 3 (shop [tablet])
    = (Raise (ValueError "Restock amount cannot be negative"), shop [tablet]).
Proof.
  destruct (update_stock_only_raises_stock (shop [tablet]) "e3" tablet 12)
    as [H12 _]; [reflexivity|lia|].
  destruct (update_stock_only_raises_stock (shop [tablet]) "e3" tablet 3)
    as [_ H3]; [reflexivity|lia|].
  split.
  - rewrite H12 by (cbn; lia). reflexivity.
  - apply H3. cbn. lia.
Defined.

Lemma get_details_product_id (today : date) (p : Product) :
  get_details today p !! "product_id" = Some (Field (VStr (product_id p))).
Proof. unfold get_details. by destruct (class p); simplify_map_eq. Qed.

(** X28.  When every key of the store is the id of its product, the select
    box of the page offers one id for each product of the store, and the ids
    it offers are exactly the keys of the store: under an id picked from the
    box the store holds a product. *)
Theorem offered_ids_are_keys (w : world) :
  store_wf (products w) →
  ∃ ids, offered_ids w = (Ok ids, w)
         ∧ length ids = size (products w)
         ∧ ∀ k, Some (Field (VStr k)) ∈ ids ↔ is_Some (products w !! k).
Proof.
  intros Hwf. eexists. split; [reflexivity|]. split.
  - unfold values. by rewrite !length_fmap, length_map_to_list.
  - intros k. rewrite <- list_fmap_compose. split.
    + intros (p & Heq & Hin)%list_elem_of_fmap.
      unfold values in Hin.
      apply list_elem_of_fmap in Hin as ((k0 & p0) & Hp0 & Hin).
      cbn in Hp0. subst p0. apply elem_of_map_to_list in Hin.
      cbn in Heq. rewrite get_details_product_id in Heq.
      injection Heq as ->. rewrite (Hwf _ _ Hin) in *. by eexists.
    + intros [p Hp]. apply list_elem_of_fmap. exists p. split.
      * cbn. by rewrite get_details_product_id, (Hwf _ _ Hp).
      * by apply (elem_of_values _ k).
Qed.

Lemma offered_ids_are_keys_witness :
  ∃ ids, offered_ids (shop [tablet; milk]) = (Ok ids, shop [tablet; milk])
         ∧ length ids = 2%nat
         ∧ Some (Field (VStr "g1")) ∈ ids.
Proof.
  destruct (offered_ids_are_keys (shop [tablet; milk])) as (ids & E & Hl & Hk).
  - apply (bool_decide_unpack _). vm_compute. exact I.
  - exists ids. split; [done|]. split; [done|]. apply Hk. by eexists.
Defined.

Lemma get_details_is_expired (today : date) (p : Product) :
  get_details today p !! "is_expired"
  = match class p with
    | Grocery expiry_date => Some (Flag (is_expired today expiry_date))
    | _ => None
    end.
Proof. unfold get_details. by destruct (class p); simplify_map_eq. Qed.

(** X29.  In a store whose keys are the ids of its products, the list that
    [list_all_products] returns right after [remove_expired_products] has
    one record for each product that is left and shows no product as
    expired: no record has [is_expired] set to [True]. *)
Theorem no_expired_listed_after_sweep (w : world) :
  store_wf (products w) →
  ∃ listed,
    (remove_expired_products;; list_all_products) w
    = (Ok listed, snd (remove_expired_products w))
    ∧ length listed = size (products (snd (remove_expired_products w)))
    ∧ ∀ details, details ∈ listed → details !! "is_expired" ≠ Some (Flag true).
Proof.
  intros Hwf. destruct (remove_expired_products_store w Hwf) as [Hok Hlook].
  destruct (inventory_only_remove_expired w) as (_ & _ & Htoday & _).
  exists (get_details (today (snd (remove_expired_products w)))
            <$> values (products (snd (remove_expired_products w)))).
  split; [|split].
  - unfold mbind, M_bind.
    destruct (remove_expired_products w) as [r w'] eqn:E. cbn in Hok.
    subst r. reflexivity.
  - unfold values. by rewrite !length_fmap, length_map_to_list.
  - intros details (p & -> & Hin)%list_elem_of_fmap.
    unfold values in Hin.
    apply list_elem_of_fmap in Hin as ((k & p0) & Hp0 & Hin).
    cbn in Hp0. subst p0. apply elem_of_map_to_list in Hin.
    rewrite Hlook in Hin. rewrite get_details_is_expired, Htoday.
    destruct (products w !! k) as [p0|]; [|done].
    destruct (class p0) as [| |d] eqn:Hc.
    + injection Hin as <-. by rewrite Hc.
    + injection Hin as <-. by rewrite Hc.
    + unfold is_expired. destruct (date_ltb d (today w)) eqn:Hd; [done|].
      injection Hin as <-. rewrite Hc, Hd. congruence.
Qed.

(** The shop with expired milk, yogurt that expires today and a tablet: two
    products are listed after the sweep. *)
Lemma no_expired_listed_after_sweep_witness :
  ∃ listed,
    fst ((remove_expired_products;; list_all_products) (shop [milk; yogurt; tablet]))
    = Ok listed
    ∧ length listed = 2%nat.
Proof.
  destruct (no_expired_listed_after_sweep (shop [milk; yogurt; tablet]))
    as (listed & E & Hl & _).
  - apply (bool_decide_unpack _). vm_compute. exact I.
  - exists listed. by rewrite E.
Defined.
